(** * Budding: an ENA fastq validator (budding.py)

    A shallow embedding of [budding.py] and the properties of its retry
    executor, run resolver, checksum catalog, file validator and entry
    point.  Python strings are [string], dictionaries are [gmap], sets are
    [gset]; exceptions and the outside world (remote services, the cache
    file, the file system, the terminal) are threaded through a state and
    error monad. *)

From Stdlib Require Import ZArith String Ascii List Lia.
From stdpp Require Import base option list gmap strings pretty.

Local Open Scope string_scope.
Local Open Scope Z_scope.

(** ** Python exceptions and results *)

(** The exception classes the program can meet.  All of them derive from
    Python's [Exception], so [except Exception] catches every one. *)
Inductive exn :=
  | Exception (msg : string)
  | KeyError (key : string)
  | IndexError
  | ValueError
  | AttributeError
  | TypeError
  | FileNotFoundError
  | ConnectionError (msg : string)
  | ParseError.

Inductive result (A : Type) :=
  | Ok (a : A)
  | Err (e : exn).
Arguments Ok {A} a.
Arguments Err {A} e.

Definition is_Ok {A} (r : result A) : bool :=
  match r with Ok _ => true | Err _ => false end.

#[global] Instance result_ret : MRet result := fun A a => Ok a.
#[global] Instance result_bind : MBind result := fun A B f r =>
  match r with Ok a => f a | Err e => Err e end.

(** [str(e)] for the exceptions above. *)
Definition str_exn (e : exn) : string :=
  match e with
  | Exception m => m
  | KeyError k => "'" +:+ k +:+ "'"
  | IndexError => "list index out of range"
  | ValueError => "invalid literal for int() with base 10"
  | AttributeError => "object has no attribute"
  | TypeError => "object is not iterable"
  | FileNotFoundError => "[Errno 2] No such file or directory"
  | ConnectionError m => m
  | ParseError => "syntax error"
  end.

(** ** Python strings and lists *)

Definition nl : ascii := "010"%char.
Definition tab : ascii := "009"%char.
Definition NL : string := String nl "".
Definition TAB : string := String tab "".

(** [s.split(sep)] for a one-character separator: always at least one
    field. *)
Fixpoint split (sep : ascii) (s : string) : list string :=
  match s with
  | "" => [""]
  | String c s' =>
      if Ascii.eqb c sep then "" :: split sep s'
      else match split sep s' with
           | h :: t => String c h :: t
           | [] => [String c ""]
           end
  end.

(** [sep.join(l)]. *)
Fixpoint join (sep : ascii) (l : list string) : string :=
  match l with
  | [] => ""
  | [x] => x
  | x :: rest => x +:+ String sep (join sep rest)
  end.

(** [f.readlines()]: the lines of a text, each with its terminating
    newline (the last line may lack one). *)
Fixpoint readlines (s : string) : list string :=
  match s with
  | "" => []
  | String c s' =>
      if Ascii.eqb c nl then NL :: readlines s'
      else match readlines s' with
           | h :: t => String c h :: t
           | [] => [String c ""]
           end
  end.

(** [s.replace("\n", "")]. *)
Fixpoint replace_nl (s : string) : string :=
  match s with
  | "" => ""
  | String c s' => if Ascii.eqb c nl then replace_nl s' else String c (replace_nl s')
  end.

(** [l[i]] with Python's negative indices; [IndexError] out of range. *)
Definition py_index {A} (l : list A) (i : Z) : result A :=
  let n := Z.of_nat (length l) in
  let j := if i <? 0 then i + n else i in
  if (j <? 0) || (n <=? j) then Err IndexError
  else match l !! Z.to_nat j with
       | Some x => Ok x
       | None => Err IndexError
       end.

(** The white space that [int()] skips around a literal in an ASCII
    text: tab, line feed, vertical tab, form feed, carriage return and
    space.  The separators 28 to 31 are not skipped. *)
Definition is_space (c : ascii) : bool :=
  let n := nat_of_ascii c in
  ((9 <=? n) && (n <=? 13) || (n =? 32))%nat.

Definition is_digit (c : ascii) : bool :=
  let n := nat_of_ascii c in ((48 <=? n) && (n <=? 57))%nat.

Fixpoint lstrip (s : string) : string :=
  match s with
  | String c s' => if is_space c then lstrip s' else s
  | "" => ""
  end.

(** The digits of a literal read left to right; [None] on a character
    that is neither a digit nor trailing white space. *)
Fixpoint digits (acc : Z) (s : string) : option Z :=
  match s with
  | "" => Some acc
  | String c s' =>
      if is_digit c then digits (10 * acc + Z.of_nat (nat_of_ascii c - 48)) s'
      else if is_space c then (if lstrip s' is "" then Some acc else None)
      else None
  end.

(** [int(s)] in base ten on an ASCII text without underscores (the
    validator only applies it to one field of a split on underscores):
    optional surrounding white space, an optional sign, at least one digit.
    A text with a character above 127 is outside this model ([int()] reads
    the digits and the white space of other scripts): the statements that
    rest on a literal being refused take the name to be ASCII, see
    [is_ascii].  The limit of [int()] on the number of digits (4300) is
    beyond the length of a file name. *)
Definition py_int (s : string) : result Z :=
  let body (t : string) : option Z :=
    match t with
    | String c _ => if is_digit c then digits 0 t else None
    | "" => None
    end in
  let r :=
    match lstrip s with
    | String "+" t => body t
    | String "-" t => Z.opp <$> body t
    | t => body t
    end in
  match r with Some z => Ok z | None => Err ValueError end.

(** [os.path.join(a, b)] on POSIX. *)
Definition ends_with_slash (a : string) : bool :=
  match String.rev a with String "/" _ => true | _ => false end.

Definition path_join (a b : string) : string :=
  match b with
  | String "/" _ => b
  | _ => if (String.length a =? 0)%nat || ends_with_slash a then a +:+ b
         else a +:+ "/" +:+ b
  end.

(** ** Parsed XML (xml.etree.ElementTree) *)

#[warnings="-register-all"]
Inductive element :=
  Element (tag : string) (attrib : list (string * string))
          (text : option string) (children : list element).

Definition tag_of (e : element) : string := let 'Element t _ _ _ := e in t.
Definition attrib_of (e : element) : list (string * string) := let 'Element _ a _ _ := e in a.
Definition text_of (e : element) : option string := let 'Element _ _ x _ := e in x.
Definition children_of (e : element) : list element := let 'Element _ _ _ c := e in c.

(** [e.findall(tag)]: the direct children with that tag. *)
Definition findall (e : element) (t : string) : list element :=
  filter (fun c => tag_of c = t) (children_of e).

(** [e.find(tag)]: the first such child, or [None]. *)
Definition find (e : element) (t : string) : option element :=
  head (findall e t).

(** [e.findall('./A/B')]. *)
Definition findall2 (e : element) (a b : string) : list element :=
  concat (map (fun c => findall c b) (findall e a)).

(** [e.attrib[k]]. *)
Definition attrib_get (e : element) (k : string) : result string :=
  match list_find (fun kv => kv.1 = k) (attrib_of e) with
  | Some (_, (_, v)) => Ok v
  | None => Err (KeyError k)
  end.

(** ** Python values, dictionary objects and data frames *)

(** The values a cell of the run table can hold: [None], a string, or the
    missing-value marker of pandas. *)
Inductive pyval :=
  | PyNone
  | PyStr (s : string)
  | PyNaN.

#[global] Instance pyval_eq_dec : EqDecision pyval.
Proof. solve_decision. Defined.

#[global] Instance pyval_countable : Countable pyval.
Proof.
  refine (inj_countable'
    (fun v => match v with PyNone => inl true | PyNaN => inl false | PyStr s => inr s end)
    (fun x => match x with inl true => PyNone | inl false => PyNaN | inr s => PyStr s end) _).
  intros []; reflexivity.
Defined.

(** Dictionaries are objects: [heap] holds them by address, and
    [data_frames] is the Python list of addresses that
    [efetch_accession_from_ids] appends to. *)
Record frames := Frames {
  heap : list (gmap string pyval);
  data_frames : list nat
}.

(** A data frame: its rows. *)
Definition DataFrame : Type := list (gmap string pyval).

(** [pd.DataFrame(data_frames)] reads each listed object as it is when the
    frame is built. *)
Definition pd_DataFrame (st : frames) : DataFrame :=
  map (fun r => default ∅ (heap st !! r)) (data_frames st).

(** [df[k].to_list()]: [KeyError] when no row has the column. *)
Definition df_column (df : DataFrame) (k : string) : result (list pyval) :=
  if existsb (fun row => bool_decide (is_Some (row !! k))) df
  then Ok (map (fun row => default PyNaN (row !! k)) df)
  else Err (KeyError k).

(** ** The outside world *)

(** A [requests] response: [ok] is false for the client and server error
    statuses, 400 to 599. *)
Record response := Response { status_code : Z; text : string }.
Definition ok (r : response) : bool :=
  negb ((400 <=? status_code r) && (status_code r <? 600)).
Definition repr_response (r : response) : string :=
  "<Response [" +:+ pretty (status_code r) +:+ "]>".

(** What one [requests.get] does: raise, or return a response. *)
Inductive outcome :=
  | Raises (e : exn)
  | Returns (r : response).

(** The remote calls of the program. *)
Inductive request :=
  | Esearch (term : string)
  | Efetch (webenv : option string) (api_key : option string)
  | Filereport (accession : string).

(** Everything the program reads from outside and does not change: the
    remote services (their answer may depend on how many remote calls were
    made before), the XML parser, the digest, the environment and the
    file system below the validated directories. *)
Record env := Env {
  http_get : nat -> request -> outcome;
  wget : nat -> string -> string;
  fromstring : string -> result element;
  md5_hexdigest : string -> string;
  environ_api_key : option string;
  listdir : string -> result (list string);
  read_file : string -> result string
}.

(** What the program changes: the remote calls made so far, the seconds
    slept, the lines printed and the warnings logged, the cache file
    [~/.ena_fastq_validator] (its text as Python reads it, [None] when the
    file does not exist), and the (accession, directory) pairs [validate]
    was entered with. *)
Record world := World {
  calls : list request;
  sleeps : list Z;
  stdout : list string;
  warnings : list string;
  md5_cache : option string;
  validated : list (string * string)
}.

Definition world0 (cache : option string) : world :=
  World [] [] [] [] cache [].

(** ** The monad of the program: state and exceptions *)

Definition M (A : Type) : Type := world -> result A * world.

#[global] Instance M_ret : MRet M := fun A a w => (Ok a, w).
#[global] Instance M_bind : MBind M := fun A B f m w =>
  match m w with
  | (Ok a, w') => f a w'
  | (Err e, w') => (Err e, w')
  end.

Definition raise {A} (e : exn) : M A := fun w => (Err e, w).
Definition lift {A} (r : result A) : M A := fun w => (r, w).

(** [try: m except Exception as e: h e]. *)
Definition try_except {A} (m : M A) (h : exn -> M A) : M A := fun w =>
  match m w with
  | (Ok a, w') => (Ok a, w')
  | (Err e, w') => h e w'
  end.

Definition print (s : string) : M unit := fun w =>
  (Ok tt, World (calls w) (sleeps w) (stdout w ++ [s]) (warnings w) (md5_cache w) (validated w)).

Definition logging_warning (s : string) : M unit := fun w =>
  (Ok tt, World (calls w) (sleeps w) (stdout w) (warnings w ++ [s]) (md5_cache w) (validated w)).

Definition time_sleep (secs : Z) : M unit := fun w =>
  (Ok tt, World (calls w) (sleeps w ++ [secs]) (stdout w) (warnings w) (md5_cache w) (validated w)).

(** Entering [validate]: the pair is added to the trace [validated].  The
    trace is ghost state: the program neither reads nor prints it. *)
Definition enter_validate (accession dir : string) : M unit := fun w =>
  (Ok tt, World (calls w) (sleeps w) (stdout w) (warnings w) (md5_cache w)
                (validated w ++ [(accession, dir)])).

Definition record_call (q : request) (w : world) : world :=
  World (calls w ++ [q]) (sleeps w) (stdout w) (warnings w) (md5_cache w) (validated w).

Section Budding.

Context (E : env).

(** [requests.get(url, params)]. *)
Definition requests_get (q : request) : M response := fun w =>
  match http_get E (length (calls w)) q with
  | Raises e => (Err e, record_call q w)
  | Returns r => (Ok r, record_call q w)
  end.

(** [subprocess.run(["wget", "-qO-", url], ...).stdout]: what [wget]
    printed, empty when it failed; [subprocess.run] itself does not raise
    on a failed download. *)
Definition wget_stdout (accession : string) : M string := fun w =>
  (Ok (wget E (length (calls w)) accession), record_call (Filereport accession) w).

(** ** [_retry_request] *)

Definition num_retries : nat := 3.
Definition sleep_time : Z := 60.

(** The inner helper [retrying(i, num_retries=3)]. *)
Definition retrying (i : nat) : M unit :=
  if (i <? num_retries - 1)%nat
  then logging_warning ("Retrying request (retry " +:+ pretty (i + 1)%nat +:+ " of "
                        +:+ pretty (num_retries - 1)%nat +:+ ")")
  else mret tt.

(** One pass of the body of [for i in range(num_retries)]: [Some res] is
    the [return this_res], [None] falls through to the next pass. *)
Definition retry_attempt (description : string) (func : M response) (i : nat)
  : M (option response) :=
  try_except
    (this_res ← func;
     if negb (ok this_res) then
       logging_warning ("Request not OK when " +:+ description +:+ ": "
                        +:+ repr_response this_res +:+ ": " +:+ text this_res);;
       logging_warning ("Sleeping for " +:+ pretty sleep_time +:+ " seconds before retrying");;
       time_sleep 60;;
       retrying i;;
       mret None
     else mret (Some this_res))
    (fun e =>
       logging_warning ("Exception raised when " +:+ description +:+ ": " +:+ str_exn e);;
       logging_warning ("Sleeping for " +:+ pretty sleep_time +:+ " seconds before retrying");;
       time_sleep 60;;
       retrying i;;
       mret None).

Fixpoint retry_loop (description : string) (func : M response) (range : list nat)
  : M response :=
  match range with
  | [] => raise (Exception ("Failed to " +:+ description +:+ " after "
                            +:+ pretty num_retries +:+ " attempts"))
  | i :: rest =>
      r ← retry_attempt description func i;
      match r with
      | Some this_res => mret this_res
      | None => retry_loop description func rest
      end
  end.

Definition _retry_request (description : string) (func : M response) : M response :=
  retry_loop description func (seq 0 num_retries).

(** ** [efetch_accession_from_ids] *)

(** [add_api_key]: the key of the environment, when there is one. *)
Definition add_api_key : option string := environ_api_key E.

(** [try_get(func)]. *)
Definition try_get (r : result string) : result pyval :=
  match r with
  | Ok s => Ok (PyStr s)
  | Err AttributeError => Ok (PyStr "")
  | Err (KeyError _) => Ok PyNone
  | Err e => Err e
  end.

(** The inner loop [for run in pkg.findall('./RUN_SET/RUN')], for the
    dictionary object at address [d].  Every pass that keeps a run writes
    that run into the one object [d] and appends the address [d] again. *)
Fixpoint run_loop (accessions_set : option (gset string)) (d : nat)
    (runs : list element) (st : frames) : result frames :=
  match runs with
  | [] => Ok st
  | run :: rest =>
      accession_here ← attrib_get run "accession";
      if match accessions_set with
         | None => true
         | Some s => bool_decide (accession_here ∈ s)
         end
      then
        v ← try_get (attrib_get run "accession");
        run_loop accessions_set d rest
          (Frames (alter (insert "run" v) d (heap st)) (data_frames st ++ [d]))
      else run_loop accessions_set d rest st
  end.

(** The outer loop [for pkg in root.findall('EXPERIMENT_PACKAGE')]:
    [d = collections.OrderedDict()] allocates one new object per package. *)
Fixpoint pkg_loop (accessions_set : option (gset string))
    (pkgs : list element) (st : frames) : result frames :=
  match pkgs with
  | [] => Ok st
  | pkg :: rest =>
      let d := length (heap st) in
      st' ← run_loop accessions_set d (findall2 pkg "RUN_SET" "RUN")
               (Frames (heap st ++ [∅]) (data_frames st));
      pkg_loop accessions_set rest st'
  end.

Definition str_option (o : option string) : string :=
  match o with Some s => s | None => "None" end.

Definition efetch_accession_from_ids (webenv : option string)
    (accessions : option (list string)) (num_ids : nat) : M DataFrame :=
  print "Fetching accession using SRA IDs from NCBI...";;
  res ← _retry_request "efetch_from_ids" (requests_get (Efetch webenv add_api_key));
  if negb (ok res) then
    raise (Exception ("HTTP Failure when requesting efetch from IDs: "
                      +:+ repr_response res +:+ ": " +:+ text res))
  else
    root ← lift (fromstring E (text res));
    print "Got accession using SRA IDs!";;
    match find root "ERROR" with
    | Some err =>
        raise (Exception ("Error when fetching metadata: " +:+ str_option (text_of err)))
    | None =>
        let accessions_set := list_to_set <$> accessions in
        st ← lift (pkg_loop accessions_set (findall root "EXPERIMENT_PACKAGE")
                            (Frames [] []));
        mret (pd_DataFrame st)
    end.

(** ** [fetch_runs_from_bioproject] *)

Definition retmax : Z := 10000.

Definition fetch_runs_from_bioproject (bioproject_accession : string) : M (list pyval) :=
  res ← requests_get (Esearch (bioproject_accession +:+ "[BioProject]"));
  if negb (ok res) then
    raise (Exception ("HTTP Failure when requesting search from bioproject: "
                      +:+ repr_response res +:+ ": " +:+ text res))
  else
    root ← lift (fromstring E (text res));
    print ("Got SRA IDs using BioProject: " +:+ bioproject_accession);;
    match find root "IdList" with
    | None => raise (Exception ("No IdList element found in response: " +:+ text res))
    | Some id_list_element =>
        let sra_ids := map text_of (children_of id_list_element) in
        (if Z.of_nat (length sra_ids) =? retmax
         then print "Unexpectedly found the maximum number of results for this query, possibly some results will be missing"
         else mret tt);;
        match find root "WebEnv" with
        | None => raise (Exception ("No WebEnv element found in response: " +:+ text res))
        | Some webenv_element =>
            let webenv := text_of webenv_element in
            metadata ← efetch_accession_from_ids webenv None (length sra_ids);
            lift (df_column metadata "run")
        end
    end.

(** ** [check_md5sum] *)

(** The file is read in chunks of 4096 bytes that all go into one digest:
    the digest of the whole content. *)
Definition check_md5sum (file_path : string) : M string :=
  content ← lift (read_file E file_path);
  mret (md5_hexdigest E content).

(** ** [get_md5_from_ena] *)

(** [with open(md5_cache_dir) as f: lines = f.readlines()]. *)
Definition read_cache_lines : M (list string) := fun w =>
  match md5_cache w with
  | None => (Err FileNotFoundError, w)
  | Some content => (Ok (readlines content), w)
  end.

(** [with open(md5_cache_dir, 'a') as out: for md5 in res_lis:
    out.write(md5 + '\n')]; opening for append creates a missing file. *)
Definition append_cache (res_lis : list string) : M unit := fun w =>
  (Ok tt,
   World (calls w) (sleeps w) (stdout w) (warnings w)
         (Some (default "" (md5_cache w) +:+ String.concat "" (map (fun md5 => md5 +:+ NL) res_lis)))
         (validated w)).

(** The loop over the lines of the cache. *)
Fixpoint load_cache (lines : list string)
    (st : list string * gmap string (list string))
  : result (list string * gmap string (list string)) :=
  match lines with
  | [] => Ok st
  | line :: rest =>
      key ← py_index (split tab line) 0;
      let cache_fastq_lis := (st.1 ++ [key])%list in
      key' ← py_index (split tab line) 0;
      field ← py_index (split tab line) 1;
      load_cache rest (cache_fastq_lis, <[key' := split ";" field]> st.2)
  end.

(** [fastq.split("_")[0]] on a cell of the run table. *)
Definition base_accession (fastq : pyval) : result string :=
  match fastq with
  | PyStr s => py_index (split "_" s) 0
  | _ => Err AttributeError
  end.

(** The loop over the runs to query: one remote file report per run. *)
Fixpoint query_loop (fq_bar : list pyval)
    (st : list string * gmap string (list string))
  : M (list string * gmap string (list string)) :=
  match fq_bar with
  | [] => mret st
  | fastq :: rest =>
      fastq_ass ← lift (base_accession fastq);
      query_p_stdout ← wget_stdout fastq_ass;
      line ← lift (py_index (split nl query_p_stdout) 1);
      let res_lis := (st.1 ++ [line])%list in
      line' ← lift (py_index (split nl query_p_stdout) 1);
      let res := split tab line' in
      ass ← lift (py_index res 0);
      md5s ← lift (py_index res 1);
      query_loop rest (res_lis, <[ass := split ";" md5s]> st.2)
  end.

(** Python lists a set in an order it does not specify: [elements] fixes
    one.  The progress bar of [tqdm] only writes to the terminal. *)
Definition get_md5_from_ena (accession : string) (cache : bool)
  : M (gmap string (list string)) :=
  print "Start generating md5 dictionary...";;
  fastq_lis ← fetch_runs_from_bioproject accession;
  if cache then
    print "Using cache to search md5...";;
    let full_fastq_set : gset pyval := list_to_set fastq_lis in
    lines ← read_cache_lines;
    loaded ← lift (load_cache lines ([], ∅));
    let cache_fastq_set : gset pyval := list_to_set (PyStr <$> loaded.1) in
    let need_query_lis := elements (full_fastq_set ∖ cache_fastq_set) in
    if (length need_query_lis =? 0)%nat then
      print "All runs are cached, no need to fetch md5 from ENA";;
      mret loaded.2
    else
      print "Some runs are not cached, start fetching md5 from ENA, this may take a while...";;
      st ← query_loop need_query_lis ([], loaded.2);
      append_cache st.1;;
      print "md5 dictionary generated!";;
      mret st.2
  else
    print "Start fetching md5 from ENA..., this may take a while";;
    st ← query_loop fastq_lis ([], ∅);
    append_cache st.1;;
    print "md5 dictionary generated!";;
    mret st.2.

(** ** [validate] *)

(** [md5_dic[k]]. *)
Definition dict_get {A} (d : gmap string A) (k : string) : result A :=
  match d !! k with
  | Some v => Ok v
  | None => Err (KeyError k)
  end.

(** One pass of [for fastq in fastq_lis]: the new failure count. *)
Definition validate_file (fastq_dir : string) (md5_dic : gmap string (list string))
    (fail_cnt : Z) (fastq : string) : M Z :=
  ass ← lift (py_index (split "_" fastq) 0);
  first ← lift (py_index (split "." fastq) 0);
  field ← lift (py_index (split "_" first) 1);
  dig ← lift (py_int field);
  let full_path := path_join fastq_dir fastq in
  actual_md5 ← check_md5sum full_path;
  entry ← lift (dict_get md5_dic ass);
  item ← lift (py_index entry (dig - 1));
  let expected_md5 := replace_nl item in
  if String.eqb actual_md5 expected_md5 then mret fail_cnt
  else
    print (ass +:+ "_" +:+ pretty dig +:+ " failed!");;
    mret (fail_cnt + 1).

Fixpoint validate_loop (fastq_dir : string) (md5_dic : gmap string (list string))
    (fail_cnt : Z) (fastq_lis : list string) : M Z :=
  match fastq_lis with
  | [] => mret fail_cnt
  | fastq :: rest =>
      fail_cnt' ← validate_file fastq_dir md5_dic fail_cnt fastq;
      validate_loop fastq_dir md5_dic fail_cnt' rest
  end.

(** The first line only records the call in the trace; the body of the
    Python function starts at [os.listdir]. *)
Definition validate (accession dir : string) : M unit :=
  enter_validate accession dir;;
  fastq_lis ← lift (listdir E dir);
  md5_dic ← get_md5_from_ena accession true;
  print "Start calculating md5";;
  fail_cnt ← validate_loop dir md5_dic 0 fastq_lis;
  print ("md5 failed count: " +:+ pretty fail_cnt);;
  if fail_cnt =? 0 then print "project download success!" else mret tt.

(** ** [main] *)

(** The parsed command line: each of [-i] and [-d] is a list, or [None]
    when the option is not given at all. *)
Record args := Args {
  args_accession : option (list string);
  args_dir : option (list string)
}.

Fixpoint main_loop (studies : list (string * string)) : M unit :=
  match studies with
  | [] => mret tt
  | study :: rest => validate study.1 study.2;; main_loop rest
  end.

(** [zip] of something that is not iterable is a [TypeError]. *)
Definition main (a : args) : M unit :=
  match args_accession a, args_dir a with
  | Some accession, Some dir => main_loop (zip accession dir)
  | _, _ => raise TypeError
  end.

End Budding.

(** ** Notions used in the statements *)

(** An attempt fails when the call raises or its response is not OK. *)
Definition failing (o : outcome) : bool :=
  match o with
  | Raises _ => true
  | Returns r => negb (ok r)
  end.

(** [keeps proj m]: running [m] never changes the component [proj] of the
    world, whether [m] returns or raises. *)
Definition keeps {X A} (proj : world -> X) (m : M A) : Prop :=
  forall w, proj (m w).2 = proj w.

(** The part of a name before its first underscore. *)
Definition run_base (s : string) : string :=
  match split "_" s with
  | h :: _ => h
  | [] => ""
  end.

(** Every character of the text is below 128. *)
Fixpoint is_ascii (s : string) : bool :=
  match s with
  | "" => true
  | String c s' => (nat_of_ascii c <? 128)%nat && is_ascii s'
  end.

(** [int(fastq.split(".")[0].split("_")[1])]: the file index of a name. *)
Definition file_index (fastq : string) : result Z :=
  first ← py_index (split "." fastq) 0;
  field ← py_index (split "_" first) 1;
  py_int field.




(** [c] occurs in [s]. *)
Fixpoint occurs (c : ascii) (s : string) : bool :=
  match s with
  | "" => false
  | String a s' => Ascii.eqb a c || occurs c s'
  end.

(** The data line of a file report, which is also the line written to the
    cache: the run, a tab, the checksums joined by semicolons. *)
Definition cache_line (run : string) (checksums : list string) : string :=
  run +:+ TAB +:+ join ";" checksums.

(** [t] appended to the last text of a list. *)
Fixpoint append_last (t : string) (l : list string) : list string :=
  match l with
  | [] => []
  | [x] => [x +:+ t]
  | x :: rest => x :: append_last t rest
  end.

(** A text that is empty or ends with a newline. *)
Fixpoint ends_nl (s : string) : bool :=
  match s with
  | "" => true
  | String c "" => Ascii.eqb c nl
  | String _ s' => ends_nl s'
  end.

(** A text in which none of: semicolon, tab, newline occurs. *)
Definition plain (s : string) : bool :=
  negb (occurs ";" s) && negb (occurs tab s) && negb (occurs nl s).

(** ** Notions used in the further properties *)

(** Every address of the list refers to an object of the heap that holds
    a string under the key [run]. *)
Definition frames_ok (st : frames) : Prop :=
  Forall (fun r => exists m a, heap st !! r = Some m /\ m !! "run" = Some (PyStr a))
         (data_frames st).

(** The runs of a record that pass the accession filter. *)
Definition kept (accessions_set : option (gset string)) (accs : list string)
  : list string :=
  match accessions_set with
  | None => accs
  | Some s => filter (fun a => a ∈ s) accs
  end.

(** The rows that a record with the run accessions [accs] gets in the run
    table: one per kept run, all of them with the last kept run. *)
Definition record_rows (accessions_set : option (gset string)) (accs : list string)
  : DataFrame :=
  match last (kept accessions_set accs) with
  | Some a => replicate (length (kept accessions_set accs)) {["run" := PyStr a]}
  | None => []
  end.

(** The first field of a cache line, and the checksums of its second
    field. *)
Definition line_key (line : string) : string :=
  match split tab line with
  | key :: _ => key
  | [] => ""
  end.

Definition line_checksums (line : string) : list string :=
  match split tab line with
  | _ :: field :: _ => split ";" field
  | _ => []
  end.

(** [cache_grows m]: running [m] on an existing cache file leaves its
    content in place and at most adds text after it. *)
Definition cache_grows {A} (m : M A) : Prop :=
  forall (w : world) (c : string),
    md5_cache w = Some c -> exists s, md5_cache (m w).2 = Some (c +:+ s).

(** [str(md5_dic[ass][dig - 1]).replace("\n", "")] for a file name, with
    [ass] and [dig] as [validate] reads them from the name. *)
Definition expected_md5 (md5_dic : gmap string (list string)) (fastq : string)
  : result string :=
  ass ← py_index (split "_" fastq) 0;
  dig ← file_index fastq;
  entry ← dict_get md5_dic ass;
  item ← py_index entry (dig - 1);
  Ok (replace_nl item).

(** [check_md5sum(os.path.join(dir, fastq))] as a value. *)
Definition actual_md5 (E : env) (dir fastq : string) : result string :=
  content ← read_file E (path_join dir fastq);
  Ok (md5_hexdigest E content).

(** The file has a digest and an expected checksum, and they differ. *)
Definition mismatch (E : env) (dir : string) (md5_dic : gmap string (list string))
    (fastq : string) : bool :=
  match actual_md5 E dir fastq, expected_md5 md5_dic fastq with
  | Ok a, Ok x => negb (String.eqb a x)
  | _, _ => false
  end.

(** The line printed for a file that fails. *)
Definition failed_line (fastq : string) : string :=
  run_base fastq +:+ "_"
  +:+ match file_index fastq with Ok dig => pretty dig | Err _ => "" end
  +:+ " failed!".

(** The world with more lines printed. *)
Definition with_stdout (w : world) (lines : list string) : world :=
  World (calls w) (sleeps w) (stdout w ++ lines) (warnings w) (md5_cache w) (validated w).

(** A line with at least two fields, as the query loop and the cache
    loader need it. *)
Definition two_fields (line : string) : Prop :=
  exists f1 f2 rest, split tab line = f1 :: f2 :: rest.

(** ** A small concrete world

    One project whose search answers one identifier and the session token
    [MCID_1]; the fetch answers the packages [pkgs]; the file report of a
    run has the two checksums [abc] and [def]; the digest of a file is its
    content; the directory [d] holds [files]. *)

Module Demo.

Definition run_el (acc : string) : element :=
  Element "RUN" [("accession", acc)] None [].

Definition pkg_el (accs : list string) : element :=
  Element "EXPERIMENT_PACKAGE" [] None [Element "RUN_SET" [] None (map run_el accs)].

Definition fetch_root (pkgs : list (list string)) : element :=
  Element "EXPERIMENT_PACKAGE_SET" [] None (map pkg_el pkgs).

Definition search_root : element :=
  Element "eSearchResult" [] None
    [Element "IdList" [] None [Element "Id" [] (Some "1") []];
     Element "WebEnv" [] (Some "MCID_1") []].

Definition parse (pkgs : list (list string)) (s : string) : result element :=
  if String.eqb s "S" then Ok search_root
  else if String.eqb s "F" then Ok (fetch_root pkgs)
  else Err ParseError.

(** Every request is answered with status 200. *)
Definition http_up (n : nat) (q : request) : outcome :=
  match q with
  | Esearch _ => Returns (Response 200 "S")
  | _ => Returns (Response 200 "F")
  end.

(** The remote call number [k] is answered with status 500, the others
    with status 200. *)
Definition http_down_at (k : nat) (n : nat) (q : request) : outcome :=
  if (n =? k)%nat then Returns (Response 500 "busy") else http_up n q.

(** No request is answered: the connection fails. *)
Definition http_down (n : nat) (q : request) : outcome :=
  Raises (ConnectionError "unreachable").

Definition file_report (n : nat) (acc : string) : string :=
  "run_accession" +:+ TAB +:+ "fastq_md5" +:+ NL +:+ acc +:+ TAB +:+ "abc;def" +:+ NL.

Definition ls (files : list (string * string)) (dir : string) : result (list string) :=
  if String.eqb dir "d" then Ok (map fst files) else Err FileNotFoundError.

Definition cat (files : list (string * string)) (path : string) : result string :=
  match list_find (fun f => "d/" +:+ f.1 = path) files with
  | Some (_, (_, content)) => Ok content
  | None => Err FileNotFoundError
  end.

Definition world_of (http : nat -> request -> outcome) (pkgs : list (list string))
    (files : list (string * string)) : env :=
  Env http file_report (parse pkgs) (fun content => content) None (ls files) (cat files).

(** The cache file with the one line of run [SRR000001]. *)
Definition cache_SRR000001 : string :=
  "SRR000001" +:+ TAB +:+ "abc;def" +:+ NL.

End Demo.

(** * Properties *)

(** ** Python strings and lists, on examples *)

Example split_demo : split "_" "SRR1_2" = ["SRR1"; "2"].
Proof. reflexivity. Qed.

Example readlines_demo : readlines ("a" +:+ NL +:+ "b") = ["a" +:+ NL; "b"].
Proof. reflexivity. Qed.

Example py_int_demo : py_int " +12 " = Ok 12 /\ py_int "x" = Err ValueError /\ py_int "" = Err ValueError.
Proof. repeat split; reflexivity. Qed.

Example py_index_demo : py_index ["a"; "b"] (-1) = Ok "b" /\ py_index ["a"; "b"] 2 = Err IndexError.
Proof. split; reflexivity. Qed.

Example file_index_demo :
  file_index "SRR000001_2.fastq.gz" = Ok 2
  /\ file_index "notes.txt" = Err IndexError
  /\ file_index "SRR000001_x.fastq" = Err ValueError.
Proof. repeat split; reflexivity. Qed.

(** ** The monad *)

Lemma bind_Ok {A B} (m : M A) (f : A -> M B) (w w' : world) (a : A) :
  m w = (Ok a, w') -> (m ≫= f) w = f a w'.
Proof. intros H. unfold mbind, M_bind. now rewrite H. Qed.

Lemma bind_Err {A B} (m : M A) (f : A -> M B) (w w' : world) (e : exn) :
  m w = (Err e, w') -> (m ≫= f) w = (Err e, w').
Proof. intros H. unfold mbind, M_bind. now rewrite H. Qed.

Lemma bind_run {A B} (m : M A) (f : A -> M B) (w : world) :
  (m ≫= f) w
  = match m w with
    | (Ok a, w') => f a w'
    | (Err e, w') => (Err e, w')
    end.
Proof. reflexivity. Qed.

Lemma print_bind {B} (s : string) (f : unit -> M B) (w : world) :
  (print s ≫= f) w = f tt (print s w).2.
Proof. reflexivity. Qed.

Lemma lift_bind {A B} (r : result A) (f : A -> M B) (w : world) :
  (lift r ≫= f) w = match r with Ok a => f a w | Err e => (Err e, w) end.
Proof. destruct r; reflexivity. Qed.

Lemma lift_bind_Ok {A B} (a : A) (f : A -> M B) (w : world) :
  (lift (Ok a) ≫= f) w = f a w.
Proof. reflexivity. Qed.

Lemma enter_validate_bind {B} (a d : string) (f : unit -> M B) (w : world) :
  (enter_validate a d ≫= f) w = f tt (enter_validate a d w).2.
Proof. reflexivity. Qed.


(** ** Texts: appending, splitting, lines *)

Lemma append_cons (c : ascii) (a b : string) : String c a +:+ b = String c (a +:+ b).
Proof. reflexivity. Qed.

Lemma append_empty_l (b : string) : "" +:+ b = b.
Proof. reflexivity. Qed.

Lemma append_empty_r (s : string) : s +:+ "" = s.
Proof. induction s as [|c s IH]; [reflexivity|]. now rewrite append_cons, IH. Qed.

Lemma append_assoc (a b c : string) : (a +:+ b) +:+ c = a +:+ (b +:+ c).
Proof. induction a as [|x a IH]; [reflexivity|]. now rewrite !append_cons, IH. Qed.

Lemma occurs_cons (c a : ascii) (s : string) :
  occurs c (String a s) = Ascii.eqb a c || occurs c s.
Proof. reflexivity. Qed.

Lemma occurs_app (c : ascii) (a b : string) :
  occurs c (a +:+ b) = occurs c a || occurs c b.
Proof.
  induction a as [|x a IH]; [reflexivity|].
  rewrite append_cons. simpl. now rewrite IH, orb_assoc.
Qed.

Lemma occurs_join (c sep : ascii) (l : list string) :
  Ascii.eqb sep c = false ->
  Forall (fun x => occurs c x = false) l ->
  occurs c (join sep l) = false.
Proof.
  intros Hsep. induction 1 as [|x l Hx Hl IH]; [reflexivity|].
  destruct l as [|y l]; [exact Hx|].
  change (join sep (x :: y :: l)) with (x +:+ String sep (join sep (y :: l))).
  rewrite occurs_app, Hx, occurs_cons, Hsep, IH. reflexivity.
Qed.

Lemma plain_spec (s : string) :
  plain s = true ->
  occurs ";" s = false /\ occurs tab s = false /\ occurs nl s = false.
Proof.
  unfold plain. intros H. apply andb_true_iff in H as [H H3].
  apply andb_true_iff in H as [H1 H2].
  now rewrite !negb_true_iff in *.
Qed.

Lemma split_cons (sep : ascii) (s : string) :
  exists h t, split sep s = h :: t.
Proof.
  destruct s as [|c s]; simpl; [eauto|].
  destruct (Ascii.eqb c sep); [eauto|]. destruct (split sep s); eauto.
Qed.

Lemma split_no_sep (sep : ascii) (s : string) :
  occurs sep s = false -> split sep s = [s].
Proof.
  induction s as [|c s IH]; simpl; [reflexivity|].
  intros H. apply orb_false_iff in H as [Hc Hs]. rewrite Hc, (IH Hs). reflexivity.
Qed.

Lemma split_app_sep (sep : ascii) (a b : string) :
  occurs sep a = false -> split sep (a +:+ String sep b) = a :: split sep b.
Proof.
  induction a as [|c a IH].
  - intros _. rewrite append_empty_l. simpl. now rewrite Ascii.eqb_refl.
  - intros H. simpl in H. apply orb_false_iff in H as [Hc Ha].
    rewrite append_cons. simpl. rewrite Hc, (IH Ha). reflexivity.
Qed.

Lemma split_join_suffix (sep : ascii) (l : list string) (t : string) :
  l <> [] ->
  Forall (fun x => occurs sep x = false) l ->
  occurs sep t = false ->
  split sep (join sep l +:+ t) = append_last t l.
Proof.
  intros Hne Hl Ht. induction Hl as [|x l Hx Hl IH]; [congruence|].
  destruct l as [|y l].
  - simpl. apply split_no_sep. rewrite occurs_app, Hx, Ht. reflexivity.
  - change (join sep (x :: y :: l)) with (x +:+ String sep (join sep (y :: l))).
    change (append_last t (x :: y :: l)) with (x :: append_last t (y :: l)).
    rewrite <- IH by congruence.
    rewrite append_assoc, append_cons. now rewrite split_app_sep.
Qed.

Lemma append_last_empty (l : list string) : append_last "" l = l.
Proof.
  induction l as [|x [|y l] IH]; simpl in *; [reflexivity| |].
  - now rewrite append_empty_r.
  - now rewrite IH.
Qed.

Lemma split_join (sep : ascii) (l : list string) :
  l <> [] -> Forall (fun x => occurs sep x = false) l ->
  split sep (join sep l) = l.
Proof.
  intros Hne Hl. rewrite <- (append_empty_r (join sep l)).
  rewrite split_join_suffix by auto. apply append_last_empty.
Qed.

Lemma readlines_line (l : string) :
  occurs nl l = false -> readlines (l +:+ NL) = [l +:+ NL].
Proof.
  induction l as [|c l IH].
  - reflexivity.
  - intros H. simpl in H. apply orb_false_iff in H as [Hc Hl].
    rewrite append_cons. simpl. rewrite Hc, (IH Hl). reflexivity.
Qed.

Lemma readlines_app (a b : string) :
  ends_nl a = true -> readlines (a +:+ b) = (readlines a ++ readlines b)%list.
Proof.
  induction a as [|c a IH]; [reflexivity|].
  intros H. rewrite append_cons. simpl readlines.
  destruct a as [|c' a].
  - simpl in H. rewrite H. reflexivity.
  - change (ends_nl (String c (String c' a))) with (ends_nl (String c' a)) in H.
    rewrite (IH H). destruct (Ascii.eqb c nl); [reflexivity|].
    destruct (readlines (String c' a)) as [|h t] eqn:Hr; [|reflexivity].
    exfalso. simpl in Hr. destruct (Ascii.eqb c' nl); [discriminate|].
    destruct (readlines a); discriminate.
Qed.

Lemma replace_nl_id (s : string) : occurs nl s = false -> replace_nl s = s.
Proof.
  induction s as [|c s IH]; simpl; [reflexivity|].
  intros H. apply orb_false_iff in H as [Hc Hs]. now rewrite Hc, (IH Hs).
Qed.

Lemma replace_nl_app (a b : string) : replace_nl (a +:+ b) = replace_nl a +:+ replace_nl b.
Proof.
  induction a as [|c a IH]; [reflexivity|].
  rewrite append_cons. simpl. destruct (Ascii.eqb c nl); [exact IH|].
  now rewrite append_cons, IH.
Qed.

Lemma replace_nl_append_last (l : list string) :
  Forall (fun x => occurs nl x = false) l ->
  map replace_nl (append_last NL l) = l.
Proof.
  induction 1 as [|x l Hx Hl IH]; [reflexivity|].
  destruct l as [|y l].
  - simpl. rewrite replace_nl_app, (replace_nl_id x Hx). simpl.
    now rewrite append_empty_r.
  - change (append_last NL (x :: y :: l)) with (x :: append_last NL (y :: l)).
    rewrite List.map_cons, IH, (replace_nl_id x Hx). reflexivity.
Qed.

(** ** Indexing and integer literals *)

Lemma py_index_nonneg {A} (l : list A) (i : Z) (x : A) :
  0 <= i -> l !! Z.to_nat i = Some x -> py_index l i = Ok x.
Proof.
  intros Hi Hx. unfold py_index.
  pose proof (lookup_lt_Some _ _ _ Hx) as Hlt.
  destruct (Z.ltb_spec i 0) as [H|_]; [lia|].
  destruct (Z.ltb_spec i 0) as [H|_]; [lia|].
  destruct (Z.leb_spec (Z.of_nat (length l)) i) as [H|_]; [lia|].
  simpl. now rewrite Hx.
Qed.



Lemma py_index_0 {A} (h : A) (t : list A) : py_index (h :: t) 0 = Ok h.
Proof. now apply py_index_nonneg. Qed.

Lemma py_index_1 {A} (h x : A) (t : list A) : py_index (h :: x :: t) 1 = Ok x.
Proof. now apply py_index_nonneg. Qed.

Lemma py_index_1_short {A} (h : A) : py_index [h] 1 = Err IndexError.
Proof. reflexivity. Qed.

Lemma py_index_error {A} (l : list A) (i : Z) (e : exn) :
  py_index l i = Err e -> e = IndexError.
Proof.
  unfold py_index. destruct (_ || _); [congruence|].
  destruct (l !! _); congruence.
Qed.


Lemma split_index_0 (sep : ascii) (s : string) :
  py_index (split sep s) 0 = Ok (match split sep s with h :: _ => h | [] => "" end).
Proof. destruct (split_cons sep s) as (h & t & ->). apply py_index_0. Qed.

Lemma base_accession_str (s : string) : base_accession (PyStr s) = Ok (run_base s).
Proof. apply split_index_0. Qed.


Example py_int_separator :
  py_int (String "028"%char "1") = Err ValueError
  /\ file_index ("SRR000001_" +:+ String "028"%char "1.fastq") = Err ValueError
  /\ py_int (" 7" +:+ NL) = Ok 7.
Proof. repeat split; reflexivity. Qed.

Lemma is_digit_ascii (c : ascii) : is_digit c = true -> (nat_of_ascii c <? 128)%nat = true.
Proof.
  unfold is_digit. intros H. apply andb_true_iff in H as [_ H].
  apply Nat.leb_le in H. apply Nat.ltb_lt. lia.
Qed.

Lemma is_space_ascii (c : ascii) : is_space c = true -> (nat_of_ascii c <? 128)%nat = true.
Proof.
  unfold is_space. intros H. apply Nat.ltb_lt.
  apply orb_true_iff in H as [H|H].
  - apply andb_true_iff in H as [_ H]. apply Nat.leb_le in H. lia.
  - apply Nat.eqb_eq in H. lia.
Qed.

Lemma lstrip_empty_ascii (s : string) : lstrip s = "" -> is_ascii s = true.
Proof.
  induction s as [|c s IH]; simpl; [reflexivity|].
  destruct (is_space c) eqn:Hc; [|discriminate].
  intros H. now rewrite (is_space_ascii c Hc), (IH H).
Qed.

Lemma lstrip_ascii (s : string) : is_ascii (lstrip s) = true -> is_ascii s = true.
Proof.
  induction s as [|c s IH]; simpl; [reflexivity|].
  destruct (is_space c) eqn:Hc; [|auto].
  intros H. now rewrite (is_space_ascii c Hc), (IH H).
Qed.

Lemma digits_ascii (s : string) :
  forall (acc z : Z), digits acc s = Some z -> is_ascii s = true.
Proof.
  induction s as [|c s IH]; intros acc z; simpl; [reflexivity|].
  destruct (is_digit c) eqn:Hd.
  - intros H. now rewrite (is_digit_ascii c Hd), (IH _ _ H).
  - destruct (is_space c) eqn:Hs; [|discriminate].
    destruct (lstrip s) eqn:Hl; [|discriminate].
    intros _. now rewrite (is_space_ascii c Hs), (lstrip_empty_ascii s Hl).
Qed.

(** A text that [py_int] reads is ASCII: where the model gives an
    integer, it is the integer that [int()] gives. *)
Lemma py_int_Ok_ascii (s : string) (z : Z) : py_int s = Ok z -> is_ascii s = true.
Proof.
  unfold py_int. intros H. apply lstrip_ascii.
  assert (Body : forall t : string,
            match t with
            | String c _ => if is_digit c then digits 0 t else None
            | "" => None
            end <> None -> is_ascii t = true).
  { intros [|c t]; [congruence|]. destruct (is_digit c); [|congruence].
    destruct (digits 0 (String c t)) eqn:Hd; [|congruence].
    intros _. eapply digits_ascii, Hd. }
  destruct (lstrip s) as [|c t]; [discriminate H|].
  destruct (Ascii.eqb_spec c "+") as [->|Hp].
  - change (is_ascii (String "+" t)) with (is_ascii t). apply Body.
    intros Hn. cbv zeta in H. rewrite Hn in H. discriminate.
  - destruct (Ascii.eqb_spec c "-") as [->|Hm].
    + change (is_ascii (String "-" t)) with (is_ascii t). apply Body.
      intros Hn. cbv zeta in H. rewrite Hn in H. discriminate.
    + apply Body. intros Hn. cbv zeta in H.
      destruct c as [[] [] [] [] [] [] [] []];
        try (exfalso; apply Hp; reflexivity);
        try (exfalso; apply Hm; reflexivity);
        rewrite Hn in H; discriminate.
Qed.

(** ** What a computation leaves unchanged *)

Create HintDb keeps.

Section Keeps.
Context {X : Type} (proj : world -> X).

Lemma keeps_ret {A} (a : A) : keeps proj (mret a).
Proof. intros w. reflexivity. Qed.

Lemma keeps_raise {A} (e : exn) : keeps proj (@raise A e).
Proof. intros w. reflexivity. Qed.

Lemma keeps_lift {A} (r : result A) : keeps proj (lift r).
Proof. intros w. reflexivity. Qed.

Lemma keeps_bind {A B} (m : M A) (f : A -> M B) :
  keeps proj m -> (forall a, keeps proj (f a)) -> keeps proj (m ≫= f).
Proof.
  intros Hm Hf w. unfold mbind, M_bind. specialize (Hm w).
  destruct (m w) as [[a|e] w']; simpl in *.
  - rewrite Hf. exact Hm.
  - exact Hm.
Qed.

Lemma keeps_try_except {A} (m : M A) (h : exn -> M A) :
  keeps proj m -> (forall e, keeps proj (h e)) -> keeps proj (try_except m h).
Proof.
  intros Hm Hh w. unfold try_except. specialize (Hm w).
  destruct (m w) as [[a|e] w']; simpl in *.
  - exact Hm.
  - rewrite Hh. exact Hm.
Qed.

End Keeps.

#[global] Hint Resolve keeps_ret keeps_raise keeps_lift : keeps.

Ltac keeps_step :=
  lazymatch goal with
  | |- keeps _ (mbind _ _) => apply keeps_bind; [|intros]
  | |- keeps _ (try_except _ _) => apply keeps_try_except; [|intros]
  | |- keeps _ (if ?b then _ else _) => destruct b
  | |- keeps _ (match ?x with _ => _ end) => destruct x
  | |- keeps _ _ => solve [eauto with keeps]
  end.

Ltac keeps_tac := repeat keeps_step.

(** The cache file and the trace of [validate] are untouched by printing,
    logging, sleeping and the remote calls. *)
Lemma keeps_cache_print s : keeps md5_cache (print s).
Proof. intros w. reflexivity. Qed.

Lemma keeps_cache_warning s : keeps md5_cache (logging_warning s).
Proof. intros w. reflexivity. Qed.

Lemma keeps_cache_sleep n : keeps md5_cache (time_sleep n).
Proof. intros w. reflexivity. Qed.

Lemma keeps_cache_get E q : keeps md5_cache (requests_get E q).
Proof. intros w. unfold requests_get. destruct (http_get _ _ _); reflexivity. Qed.

Lemma keeps_validated_print s : keeps validated (print s).
Proof. intros w. reflexivity. Qed.

Lemma keeps_validated_warning s : keeps validated (logging_warning s).
Proof. intros w. reflexivity. Qed.

Lemma keeps_validated_sleep n : keeps validated (time_sleep n).
Proof. intros w. reflexivity. Qed.

Lemma keeps_validated_get E q : keeps validated (requests_get E q).
Proof. intros w. unfold requests_get. destruct (http_get _ _ _); reflexivity. Qed.

Lemma keeps_validated_wget E a : keeps validated (wget_stdout E a).
Proof. intros w. reflexivity. Qed.

Lemma keeps_validated_read_cache : keeps validated read_cache_lines.
Proof. intros w. unfold read_cache_lines. destruct (md5_cache w); reflexivity. Qed.

Lemma keeps_validated_append l : keeps validated (append_cache l).
Proof. intros w. reflexivity. Qed.

#[global] Hint Resolve keeps_cache_print keeps_cache_warning keeps_cache_sleep
  keeps_cache_get keeps_validated_print keeps_validated_warning
  keeps_validated_sleep keeps_validated_get keeps_validated_wget
  keeps_validated_read_cache keeps_validated_append : keeps.

Section KeepsProgram.
Context {X : Type} (proj : world -> X) (E : env).
Hypothesis proj_print : forall s, keeps proj (print s).
Hypothesis proj_warning : forall s, keeps proj (logging_warning s).
Hypothesis proj_sleep : forall n, keeps proj (time_sleep n).
Hypothesis proj_get : forall q, keeps proj (requests_get E q).

Local Hint Resolve proj_print proj_warning proj_sleep proj_get : keeps.

Lemma keeps_retrying i : keeps proj (retrying i).
Proof. unfold retrying. keeps_tac. Qed.

Local Hint Resolve keeps_retrying : keeps.

Lemma keeps_retry_request description q :
  keeps proj (_retry_request description (requests_get E q)).
Proof.
  unfold _retry_request. generalize (seq 0 num_retries) as range.
  induction range as [|i range IH]; simpl.
  - keeps_tac.
  - apply keeps_bind; [unfold retry_attempt; keeps_tac|].
    intros [r|]; keeps_tac.
Qed.

Local Hint Resolve keeps_retry_request : keeps.

Lemma keeps_efetch webenv accessions num_ids :
  keeps proj (efetch_accession_from_ids E webenv accessions num_ids).
Proof. unfold efetch_accession_from_ids. keeps_tac. Qed.

Local Hint Resolve keeps_efetch : keeps.

Lemma keeps_fetch_runs accession :
  keeps proj (fetch_runs_from_bioproject E accession).
Proof. unfold fetch_runs_from_bioproject. keeps_tac. Qed.

End KeepsProgram.

Lemma keeps_cache_fetch_runs E accession :
  keeps md5_cache (fetch_runs_from_bioproject E accession).
Proof. apply keeps_fetch_runs; auto with keeps. Qed.

Lemma keeps_validated_fetch_runs E accession :
  keeps validated (fetch_runs_from_bioproject E accession).
Proof. apply keeps_fetch_runs; auto with keeps. Qed.

#[global] Hint Resolve keeps_cache_fetch_runs keeps_validated_fetch_runs : keeps.

Lemma keeps_validated_query_loop E l st : keeps validated (query_loop E l st).
Proof. revert st. induction l as [|fastq l IH]; intros st; simpl; keeps_tac. Qed.

#[global] Hint Resolve keeps_validated_query_loop : keeps.

Lemma keeps_validated_get_md5 E accession cache :
  keeps validated (get_md5_from_ena E accession cache).
Proof. unfold get_md5_from_ena. keeps_tac. Qed.

Lemma keeps_validated_validate_file E dir md5_dic n fastq :
  keeps validated (validate_file E dir md5_dic n fastq).
Proof. unfold validate_file, check_md5sum. keeps_tac. Qed.

#[global] Hint Resolve keeps_validated_get_md5 keeps_validated_validate_file : keeps.

Lemma keeps_validated_validate_loop E dir md5_dic n l :
  keeps validated (validate_loop E dir md5_dic n l).
Proof. revert n. induction l as [|fastq l IH]; intros n; simpl; keeps_tac. Qed.

#[global] Hint Resolve keeps_validated_validate_loop : keeps.

(** [validate] is entered once and logs its pair, whatever happens then. *)
Lemma validate_trace E accession dir w :
  validated (validate E accession dir w).2 = (validated w ++ [(accession, dir)])%list.
Proof.
  unfold validate.
  assert (K : forall m : M unit, keeps validated m ->
            validated ((enter_validate accession dir ≫= fun _ => m) w).2
            = (validated w ++ [(accession, dir)])%list).
  { intros m Hm. unfold mbind, M_bind, enter_validate. rewrite Hm. reflexivity. }
  apply K. keeps_tac.
Qed.



(** ** The retry executor *)

(** The world after one failed attempt: the call is made, one sleep of 60
    seconds is taken; only the warnings differ otherwise. *)
Lemma retry_attempt_failing (E : env) (description : string) (q : request)
    (i : nat) (w : world) :
  failing (http_get E (length (calls w)) q) = true ->
  exists w',
    retry_attempt description (requests_get E q) i w = (Ok None, w')
    /\ calls w' = (calls w ++ [q])%list
    /\ sleeps w' = (sleeps w ++ [60])%list
    /\ stdout w' = stdout w
    /\ md5_cache w' = md5_cache w
    /\ validated w' = validated w.
Proof.
  intros Hf. unfold retry_attempt, try_except, requests_get, mbind, M_bind.
  destruct (http_get E (length (calls w)) q) as [e|r]; simpl in Hf.
  - unfold retrying. destruct (i <? num_retries - 1)%nat; simpl; eauto 10.
  - apply negb_true_iff in Hf. rewrite Hf. simpl.
    unfold retrying. destruct (i <? num_retries - 1)%nat; simpl; eauto 10.
Qed.

(** One attempt that succeeds returns its response at once, without
    sleeping. *)
Lemma retry_attempt_ok (E : env) (description : string) (q : request)
    (i : nat) (w : world) (r : response) :
  http_get E (length (calls w)) q = Returns r -> ok r = true ->
  retry_attempt description (requests_get E q) i w = (Ok (Some r), record_call q w).
Proof.
  intros Hq Hok. unfold retry_attempt, try_except, requests_get, mbind, M_bind.
  rewrite Hq, Hok. reflexivity.
Qed.

Lemma retries_exhausted_message (description : string) :
  "Failed to " +:+ description +:+ " after " +:+ pretty num_retries +:+ " attempts"
  = "Failed to " +:+ description +:+ " after 3 attempts".
Proof. reflexivity. Qed.

(** C7. An operation that fails on each of its attempts (it raises, or its
    response is not OK, at the three calls that follow the state [w]) makes
    [_retry_request] raise the exception "Failed to <description> after 3
    attempts", after exactly three calls of the operation and three sleeps
    of 60 seconds. *)
Theorem retry_request_always_failing (E : env) (description : string)
    (q : request) (w : world) :
  (forall k : nat, (k < 3)%nat ->
     failing (http_get E (length (calls w) + k) q) = true) ->
  exists w',
    _retry_request description (requests_get E q) w
      = (Err (Exception ("Failed to " +:+ description +:+ " after 3 attempts")), w')
    /\ calls w' = (calls w ++ [q; q; q])%list
    /\ sleeps w' = (sleeps w ++ [60; 60; 60])%list.
Proof.
  intros Hfail.
  destruct (retry_attempt_failing E description q 0%nat w) as (w1 & H1 & C1 & S1 & _).
  { specialize (Hfail 0%nat). rewrite Nat.add_0_r in Hfail. apply Hfail; lia. }
  destruct (retry_attempt_failing E description q 1%nat w1) as (w2 & H2 & C2 & S2 & _).
  { rewrite C1, length_app. simpl. apply Hfail; lia. }
  destruct (retry_attempt_failing E description q 2%nat w2) as (w3 & H3 & C3 & S3 & _).
  { rewrite C2, C1, !length_app. simpl. rewrite <- Nat.add_assoc. apply Hfail; lia. }
  exists w3. split; [|split].
  - unfold _retry_request. simpl seq. simpl retry_loop.
    rewrite (bind_Ok _ _ _ _ _ H1). cbn beta iota.
    rewrite (bind_Ok _ _ _ _ _ H2). cbn beta iota.
    rewrite (bind_Ok _ _ _ _ _ H3). cbn beta iota.
    reflexivity.
  - rewrite C3, C2, C1, <- !app_assoc. reflexivity.
  - rewrite S3, S2, S1, <- !app_assoc. reflexivity.
Qed.

(** C7 on an unreachable service: three calls, three sleeps, then the
    exception. *)
Lemma retry_request_always_failing_witness :
  exists w',
    _retry_request "efetch_from_ids"
      (requests_get (Demo.world_of Demo.http_down [] []) (Efetch (Some "MCID_1") None))
      (world0 None)
    = (Err (Exception "Failed to efetch_from_ids after 3 attempts"), w')
    /\ calls w' = [Efetch (Some "MCID_1") None; Efetch (Some "MCID_1") None;
                   Efetch (Some "MCID_1") None]
    /\ sleeps w' = [60; 60; 60].
Proof.
  apply (retry_request_always_failing (Demo.world_of Demo.http_down [] [])
           "efetch_from_ids" (Efetch (Some "MCID_1") None) (world0 None)).
  intros k Hk. reflexivity.
Defined.

(** ** The run resolver *)

(** Without a filter, the inner loop writes each run into the object [d]
    in turn and appends the address [d] once per run. *)
Lemma run_loop_unfiltered (d : nat) (runs : list element) (accs : list string)
    (st : frames) :
  Forall2 (fun run a => attrib_get run "accession" = Ok a) runs accs ->
  run_loop None d runs st
  = Ok (Frames (foldl (fun h a => alter (insert "run" (PyStr a)) d h) (heap st) accs)
               (data_frames st ++ replicate (length accs) d)).
Proof.
  intros H. revert st. induction H as [|run a runs accs Ha _ IH]; intros st; simpl.
  - rewrite app_nil_r. now destruct st.
  - unfold mbind at 1, result_bind. rewrite Ha. simpl. rewrite IH. simpl.
    now rewrite <- app_assoc.
Qed.

Lemma foldl_insert_run (m : gmap string pyval) (accs : list string) (a : string) :
  m = ∅ \/ (exists v, m = {["run" := v]}) ->
  foldl (fun m a => <["run" := PyStr a]> m) m (accs ++ [a]) = {["run" := PyStr a]}.
Proof.
  revert m. induction accs as [|b accs IH]; intros m Hm; simpl.
  - destruct Hm as [->|[v ->]]; [apply insert_empty|apply insert_singleton_eq].
  - apply IH. right. exists (PyStr b).
    destruct Hm as [->|[v ->]]; [apply insert_empty|apply insert_singleton_eq].
Qed.

Lemma foldl_alter_head (h0 : gmap string pyval) (accs : list string) :
  foldl (fun h a => alter (insert "run" (PyStr a)) 0%nat h) [h0] accs
  = [foldl (fun m a => <["run" := PyStr a]> m) h0 accs].
Proof. revert h0. induction accs as [|a accs IH]; intros h0; simpl; [reflexivity|apply IH]. Qed.

(** The run table of a response with one record: as many rows as the
    record has runs, every row holding the last run of the record. *)
Lemma single_record_rows (pkg : element) (accs : list string) (a : string) :
  Forall2 (fun run a => attrib_get run "accession" = Ok a)
          (findall2 pkg "RUN_SET" "RUN") (accs ++ [a]) ->
  exists st,
    pkg_loop None [pkg] (Frames [] []) = Ok st
    /\ pd_DataFrame st = replicate (length (accs ++ [a])) {["run" := PyStr a]}.
Proof.
  intros H. simpl. rewrite (run_loop_unfiltered _ _ _ _ H). simpl.
  eexists. split; [reflexivity|].
  unfold pd_DataFrame. simpl heap. simpl data_frames.
  rewrite foldl_alter_head, foldl_insert_run by auto.
  f_equal. generalize (length (accs ++ [a])) as n.
  induction n as [|n IH]; simpl; [reflexivity|now rewrite IH].
Qed.

(** C1. A record with the two runs SRR000001 and SRR000002: the run table
    built by [efetch_accession_from_ids] has two rows, both SRR000002, and
    [fetch_runs_from_bioproject] returns SRR000002 twice.  SRR000001 is
    lost: every row of a record is the one dictionary object of that
    record, which holds the last run written into it. *)
Theorem efetch_multiple_runs_last_wins :
  let E := Demo.world_of Demo.http_up [["SRR000001"; "SRR000002"]] [] in
  (efetch_accession_from_ids E (Some "MCID_1") None 1 (world0 None)).1
    = Ok [ {["run" := PyStr "SRR000002"]}; {["run" := PyStr "SRR000002"]} ]
  /\ (fetch_runs_from_bioproject E "PRJNA1" (world0 None)).1
    = Ok [PyStr "SRR000002"; PyStr "SRR000002"].
Proof. split; vm_compute; reflexivity. Qed.

(** A failed search is final: one call, no retry. *)
Lemma search_failure_is_final (E : env) (accession : string) (w : world) :
  failing (http_get E (length (calls w)) (Esearch (accession +:+ "[BioProject]"))) = true ->
  is_Ok (fetch_runs_from_bioproject E accession w).1 = false
  /\ (fetch_runs_from_bioproject E accession w).2
     = record_call (Esearch (accession +:+ "[BioProject]")) w.
Proof.
  unfold fetch_runs_from_bioproject, requests_get. rewrite bind_run.
  destruct (http_get E _ _) as [e|r]; simpl; [auto|].
  intros Hf. rewrite Hf. auto.
Qed.

(** C4. The search request is made once, outside [_retry_request]: when
    the search endpoint answers status 500 at the first call and would
    answer 200 afterwards, [fetch_runs_from_bioproject] raises after this
    single call, without sleeping.  The fetch request with the same
    failure is retried and the run list is returned. *)
Theorem search_request_not_retried :
  let E0 := Demo.world_of (Demo.http_down_at 0) [["SRR000001"]] [] in
  let E1 := Demo.world_of (Demo.http_down_at 1) [["SRR000001"]] [] in
  let r0 := fetch_runs_from_bioproject E0 "PRJNA1" (world0 None) in
  let r1 := fetch_runs_from_bioproject E1 "PRJNA1" (world0 None) in
  r0.1 = Err (Exception
    "HTTP Failure when requesting search from bioproject: <Response [500]>: busy")
  /\ calls r0.2 = [Esearch "PRJNA1[BioProject]"]
  /\ sleeps r0.2 = []
  /\ r1.1 = Ok [PyStr "SRR000001"]
  /\ calls r1.2 = [Esearch "PRJNA1[BioProject]"; Efetch (Some "MCID_1") None;
                   Efetch (Some "MCID_1") None]
  /\ sleeps r1.2 = [60].
Proof. repeat split; vm_compute; reflexivity. Qed.

(** ** The checksum catalog: cached runs *)


(** [get_md5_from_ena] with [cache=True], once the run list is resolved
    and the cache file is loaded. *)
Lemma get_md5_from_ena_loaded (E : env) (accession : string) (w w1 : world)
    (runs : list pyval) (content : string) (keys : list string)
    (dic : gmap string (list string)) :
  fetch_runs_from_bioproject E accession
    (print "Start generating md5 dictionary..." w).2 = (Ok runs, w1) ->
  md5_cache w1 = Some content ->
  load_cache (readlines content) ([], ∅) = Ok (keys, dic) ->
  get_md5_from_ena E accession true w
  = let need := elements ((list_to_set runs : gset pyval) ∖ list_to_set (PyStr <$> keys)) in
    let w2 := (print "Using cache to search md5..." w1).2 in
    if (length need =? 0)%nat
    then (Ok dic, (print "All runs are cached, no need to fetch md5 from ENA" w2).2)
    else (query_loop E need ([], dic) ≫= fun st =>
            append_cache st.1;; print "md5 dictionary generated!";; mret st.2)
           (print "Some runs are not cached, start fetching md5 from ENA, this may take a while..." w2).2.
Proof.
  intros Hf Hc Hl. unfold get_md5_from_ena.
  rewrite print_bind, bind_run, Hf, print_bind, bind_run.
  unfold read_cache_lines. simpl md5_cache. rewrite Hc.
  rewrite lift_bind, Hl. simpl fst. simpl snd. cbv zeta.
  destruct (length _ =? 0)%nat; reflexivity.
Qed.




(** ** The checksum catalog: the cache file that does not exist *)

Lemma get_md5_from_ena_no_cache_file E accession w :
  md5_cache w = None ->
  match fetch_runs_from_bioproject E accession (print "Start generating md5 dictionary..." w).2 with
  | (Ok runs, w1) =>
      get_md5_from_ena E accession true w
      = (Err FileNotFoundError, (print "Using cache to search md5..." w1).2)
  | (Err e, w1) => get_md5_from_ena E accession true w = (Err e, w1)
  end.
Proof.
  intros Hc. unfold get_md5_from_ena. rewrite print_bind, bind_run.
  pose proof (keeps_cache_fetch_runs E accession
                (print "Start generating md5 dictionary..." w).2) as Hk.
  destruct (fetch_runs_from_bioproject E accession _) as [[runs|e] w1];
    [|reflexivity].
  rewrite print_bind, bind_run. unfold read_cache_lines.
  simpl in Hk. simpl md5_cache. rewrite Hk, Hc. reflexivity.
Qed.

(** C9. When the cache file does not exist, [get_md5_from_ena] with
    [cache=True] never returns a catalog and [validate] never completes;
    as soon as the run list has been resolved, the exception is the
    [FileNotFoundError] of opening the cache file, and the file is still
    missing afterwards. *)
Theorem missing_cache_file_is_an_error (E : env) (accession : string) (w : world) :
  md5_cache w = None ->
  is_Ok (get_md5_from_ena E accession true w).1 = false
  /\ (forall dir, is_Ok (validate E accession dir w).1 = false)
  /\ (forall runs w1,
        fetch_runs_from_bioproject E accession
          (print "Start generating md5 dictionary..." w).2 = (Ok runs, w1) ->
        (get_md5_from_ena E accession true w).1 = Err FileNotFoundError
        /\ md5_cache (get_md5_from_ena E accession true w).2 = None).
Proof.
  intros Hc.
  assert (G : forall w0, md5_cache w0 = None ->
            is_Ok (get_md5_from_ena E accession true w0).1 = false).
  { intros w0 H0. pose proof (get_md5_from_ena_no_cache_file E accession w0 H0) as H.
    destruct (fetch_runs_from_bioproject _ _ _) as [[runs|e] w1]; rewrite H; reflexivity. }
  split; [auto|split].
  - intros dir. unfold validate, mbind, M_bind, enter_validate, lift.
    destruct (listdir E dir) as [l|e]; [|reflexivity].
    match goal with |- context [get_md5_from_ena E accession true ?w0] =>
      specialize (G w0 Hc); destruct (get_md5_from_ena E accession true w0) as [[d|e] w1]
    end; [discriminate G|reflexivity].
  - intros runs w1 Hf.
    pose proof (get_md5_from_ena_no_cache_file E accession w Hc) as H.
    pose proof (keeps_cache_fetch_runs E accession
                  (print "Start generating md5 dictionary..." w).2) as Hk.
    rewrite Hf in H, Hk. rewrite H. simpl in *. rewrite Hk. auto.
Qed.

(** C9 on a reachable service and no cache file. *)
Lemma missing_cache_file_is_an_error_witness :
  let E := Demo.world_of Demo.http_up [["SRR000001"]] [("SRR000001_1.fastq", "abc")] in
  is_Ok (get_md5_from_ena E "PRJNA1" true (world0 None)).1 = false
  /\ (forall dir, is_Ok (validate E "PRJNA1" dir (world0 None)).1 = false)
  /\ (forall runs w1,
        fetch_runs_from_bioproject E "PRJNA1"
          (print "Start generating md5 dictionary..." (world0 None)).2 = (Ok runs, w1) ->
        (get_md5_from_ena E "PRJNA1" true (world0 None)).1 = Err FileNotFoundError
        /\ md5_cache (get_md5_from_ena E "PRJNA1" true (world0 None)).2 = None).
Proof.
  intros E. apply (missing_cache_file_is_an_error E "PRJNA1" (world0 None)). reflexivity.
Defined.

(** ** The checksum catalog: the cache line format *)

Lemma load_cache_app (l1 l2 : list string)
    (st : list string * gmap string (list string)) :
  load_cache (l1 ++ l2) st = load_cache l1 st ≫= load_cache l2.
Proof.
  revert st. induction l1 as [|line l1 IH]; intros st; simpl; [reflexivity|].
  unfold mbind, result_bind.
  destruct (py_index (split tab line) 0); [|reflexivity].
  destruct (py_index (split tab line) 1); [|reflexivity].
  apply IH.
Qed.

(** The line of a run: what the query loop reads from it and what the
    cache loop reads from it once it is written with its newline. *)
Lemma cache_line_fields (run : string) (checksums : list string) (t : string) :
  occurs tab run = false ->
  Forall (fun c => occurs tab c = false) checksums ->
  occurs tab t = false ->
  split tab (cache_line run checksums +:+ t) = [run; join ";" checksums +:+ t].
Proof.
  intros Hr Hc Ht. unfold cache_line, TAB.
  rewrite !append_assoc, append_cons, append_empty_l, split_app_sep by exact Hr.
  rewrite split_no_sep; [reflexivity|].
  rewrite occurs_app, Ht, occurs_join; auto.
Qed.

(** C3 as stated fails: the catalog built from the file report holds
    [abc; def] for SRR000001; after the line is written and the cache is
    loaded again, the last checksum is followed by a newline. *)
Lemma cache_round_trip_counterexample :
  let E := Demo.world_of Demo.http_up [["SRR000001"]] [] in
  let first := get_md5_from_ena E "PRJNA1" true (world0 (Some "")) in
  let again := get_md5_from_ena E "PRJNA1" true first.2 in
  first.1 = Ok {["SRR000001" := ["abc"; "def"]]}
  /\ md5_cache first.2 = Some ("SRR000001" +:+ TAB +:+ "abc;def" +:+ NL)
  /\ again.1 = Ok {["SRR000001" := ["abc"; "def" +:+ NL]]}
  /\ ["abc"; "def" +:+ NL] <> ["abc"; "def"].
Proof. repeat split; try (vm_compute; reflexivity). discriminate. Qed.

(** C3 (as the code has it).  Appending the line of a run to a cache that
    is well formed (empty, or ending with a newline, and loadable) and
    loading the cache again gives, for that run, the checksums in their
    order with a newline at the end of the last one; removing the newlines,
    as [validate] does when it looks a checksum up, gives back exactly the
    checksums the query loop held for that line. *)
Theorem cache_round_trip_up_to_newline (w : world) (prior : string)
    (keys : list string) (dic : gmap string (list string))
    (run : string) (checksums : list string) :
  default "" (md5_cache w) = prior ->
  ends_nl prior = true ->
  load_cache (readlines prior) ([], ∅) = Ok (keys, dic) ->
  occurs tab run = false ->
  occurs nl run = false ->
  checksums <> [] ->
  Forall (fun c => plain c = true) checksums ->
  let line := cache_line run checksums in
  split tab line = [run; join ";" checksums]
  /\ split ";" (join ";" checksums) = checksums
  /\ (append_cache [line] ≫= fun _ =>
      read_cache_lines ≫= fun lines => lift (load_cache lines ([], ∅))) w
     = (Ok ((keys ++ [run])%list, <[run := append_last NL checksums]> dic),
        (append_cache [line] w).2)
  /\ map replace_nl (append_last NL checksums) = checksums.
Proof.
  intros Hp He Hl Htr Hnr Hne Hplain line.
  assert (Hsemi : Forall (fun c => occurs ";" c = false) checksums).
  { eapply Forall_impl; [exact Hplain|]. intros c Hc. now apply plain_spec in Hc. }
  assert (Htab : Forall (fun c => occurs tab c = false) checksums).
  { eapply Forall_impl; [exact Hplain|]. intros c Hc. now apply plain_spec in Hc. }
  assert (Hnl : Forall (fun c => occurs nl c = false) checksums).
  { eapply Forall_impl; [exact Hplain|]. intros c Hc. now apply plain_spec in Hc. }
  split; [|split; [|split]].
  - rewrite <- (append_empty_r line). unfold line.
    rewrite cache_line_fields by auto. now rewrite append_empty_r.
  - now apply split_join.
  - rewrite bind_run. unfold append_cache at 1. cbv beta iota.
    rewrite bind_run. unfold read_cache_lines at 1. simpl md5_cache.
    cbv beta iota. unfold lift. f_equal. rewrite Hp.
    rewrite readlines_app by exact He.
    rewrite readlines_line.
    2:{ unfold line, cache_line. rewrite !occurs_app, Hnr. simpl.
        apply occurs_join; auto. }
    rewrite load_cache_app, Hl. simpl.
    unfold line. rewrite cache_line_fields by auto.
    rewrite py_index_0, py_index_1. simpl.
    rewrite split_join_suffix by auto. reflexivity.
  - now apply replace_nl_append_last.
Qed.

(** C3 (as the code has it) for the run SRR000002 with two checksums,
    appended to a cache of one line. *)
Lemma cache_round_trip_up_to_newline_witness :
  let w := world0 (Some Demo.cache_SRR000001) in
  let line := cache_line "SRR000002" ["123"; "456"] in
  split tab line = ["SRR000002"; join ";" ["123"; "456"]]
  /\ split ";" (join ";" ["123"; "456"]) = ["123"; "456"]
  /\ (append_cache [line] ≫= fun _ =>
      read_cache_lines ≫= fun lines => lift (load_cache lines ([], ∅))) w
     = (Ok ((["SRR000001"] ++ ["SRR000002"])%list,
            <["SRR000002" := append_last NL ["123"; "456"]]>
              {["SRR000001" := ["abc"; "def" +:+ NL]]}),
        (append_cache [line] w).2)
  /\ map replace_nl (append_last NL ["123"; "456"]) = ["123"; "456"].
Proof.
  intros w line.
  apply (cache_round_trip_up_to_newline w Demo.cache_SRR000001 ["SRR000001"]
           {["SRR000001" := ["abc"; "def" +:+ NL]]} "SRR000002" ["123"; "456"]).
  - reflexivity.
  - reflexivity.
  - vm_compute. reflexivity.
  - reflexivity.
  - reflexivity.
  - discriminate.
  - repeat constructor.
Defined.

(** ** The file validator *)


Lemma check_md5sum_run E path content w :
  read_file E path = Ok content ->
  check_md5sum E path w = (Ok (md5_hexdigest E content), w).
Proof. intros H. unfold check_md5sum. now rewrite lift_bind, H. Qed.

(** One pass of the loop on a name whose file index is [dig], for a file
    that can be read. *)
Lemma validate_file_parsed E dir md5_dic n fastq dig content w :
  file_index fastq = Ok dig ->
  read_file E (path_join dir fastq) = Ok content ->
  validate_file E dir md5_dic n fastq w
  = match dict_get md5_dic (run_base fastq) with
    | Err e => (Err e, w)
    | Ok entry =>
        match py_index entry (dig - 1) with
        | Err e => (Err e, w)
        | Ok item =>
            if String.eqb (md5_hexdigest E content) (replace_nl item) then (Ok n, w)
            else (Ok (n + 1), (print (run_base fastq +:+ "_" +:+ pretty dig +:+ " failed!") w).2)
        end
    end.
Proof.
  unfold file_index, validate_file. intros H Hr.
  rewrite lift_bind, split_index_0. cbv beta iota. fold (run_base fastq).
  unfold mbind at 1 2, result_bind in H.
  rewrite lift_bind. destruct (py_index (split "." fastq) 0) as [first|]; [|congruence].
  rewrite lift_bind. destruct (py_index (split "_" first) 1) as [field|]; [|congruence].
  rewrite lift_bind, H. rewrite bind_run, (check_md5sum_run _ _ _ w Hr).
  rewrite lift_bind. destruct (dict_get md5_dic (run_base fastq)) as [entry|]; [|reflexivity].
  rewrite lift_bind. destruct (py_index entry (dig - 1)) as [item|]; [|reflexivity].
  destruct (String.eqb _ _); reflexivity.
Qed.



(** [validate] up to its loop. *)
Lemma validate_run E accession dir w l :
  listdir E dir = Ok l ->
  validate E accession dir w
  = match get_md5_from_ena E accession true (enter_validate accession dir w).2 with
    | (Err e, w1) => (Err e, w1)
    | (Ok md5_dic, w1) =>
        match validate_loop E dir md5_dic 0 l (print "Start calculating md5" w1).2 with
        | (Err e, w2) => (Err e, w2)
        | (Ok fail_cnt, w2) =>
            let w3 := (print ("md5 failed count: " +:+ pretty fail_cnt) w2).2 in
            if fail_cnt =? 0 then print "project download success!" w3 else (Ok tt, w3)
        end
    end.
Proof.
  intros Hl. unfold validate. rewrite enter_validate_bind, lift_bind, Hl, bind_run.
  destruct (get_md5_from_ena _ _ _ _) as [[md5_dic|e] w1]; [|reflexivity].
  rewrite print_bind, bind_run.
  destruct (validate_loop _ _ _ _ _ _) as [[fail_cnt|e] w2]; [|reflexivity].
  rewrite print_bind. cbv zeta. destruct (fail_cnt =? 0); reflexivity.
Qed.







(** ** The entry point *)

Lemma main_loop_app E (l1 l2 : list (string * string)) (w : world) :
  main_loop E (l1 ++ l2) w
  = match main_loop E l1 w with
    | (Ok _, w1) => main_loop E l2 w1
    | (Err e, w1) => (Err e, w1)
    end.
Proof.
  revert w. induction l1 as [|study l1 IH]; intros w; simpl; [reflexivity|].
  rewrite !bind_run. destruct (validate E study.1 study.2 w) as [[[]|e] w1]; auto.
Qed.

(** The pairs [validate] was entered with are a prefix of the pairs of
    the loop: all of them when the loop returns. *)
Lemma main_loop_trace E (l : list (string * string)) (w : world) :
  exists k : nat,
    (k <= length l)%nat
    /\ validated (main_loop E l w).2 = (validated w ++ take k l)%list
    /\ (is_Ok (main_loop E l w).1 = true -> k = length l).
Proof.
  revert w. induction l as [|[a d] l IH]; intros w; simpl.
  - exists 0%nat. rewrite app_nil_r. auto.
  - rewrite bind_run. pose proof (validate_trace E a d w) as Ht.
    destruct (validate E a d w) as [[[]|e] w1]; simpl in Ht.
    + destruct (IH w1) as (k & Hk & Hv & Hok). exists (S k).
      rewrite Hv, Ht, <- app_assoc. simpl. repeat split; auto with lia.
    + exists 1%nat. simpl. rewrite take_0. repeat split; [lia|auto|discriminate].
Qed.

Lemma zip_take_min {A B} (l1 : list A) (l2 : list B) :
  zip (take (length l1 `min` length l2) l1) (take (length l1 `min` length l2) l2)
  = zip l1 l2.
Proof.
  revert l2. induction l1 as [|a l1 IH]; intros [|b l2]; simpl; try reflexivity.
  now rewrite IH.
Qed.

Lemma take_zip {A B} (k : nat) (l1 : list A) (l2 : list B) :
  take k (zip l1 l2) = zip (take k l1) (take k l2).
Proof.
  revert l1 l2. induction k as [|k IH]; intros [|a l1] [|b l2]; simpl; try reflexivity.
  now rewrite IH.
Qed.

Lemma main_loop_enters_first E (l : list (string * string)) (w : world) :
  exists k : nat,
    (k <= length l)%nat
    /\ (l <> [] -> (0 < k)%nat)
    /\ validated (main_loop E l w).2 = (validated w ++ take k l)%list
    /\ (is_Ok (main_loop E l w).1 = true -> k = length l).
Proof.
  destruct l as [|[a d] l].
  - exists 0%nat. simpl. rewrite app_nil_r. repeat split; auto. congruence.
  - simpl main_loop. rewrite bind_run. pose proof (validate_trace E a d w) as Ht.
    destruct (validate E a d w) as [[[]|e] w1]; simpl in Ht.
    + destruct (main_loop_trace E l w1) as (k & Hk & Hv & Hok). exists (S k).
      rewrite Hv, Ht, <- app_assoc. simpl. repeat split; auto with lia.
    + exists 1%nat. simpl. rewrite take_0. repeat split; [lia|lia|auto|discriminate].
Qed.

(** C10 as stated fails when an option is not given at all: with two
    accessions and no [-d], [main] raises [TypeError] instead of dropping
    the accessions silently. *)
Lemma main_missing_option_counterexample :
  let E := Demo.world_of Demo.http_up [["SRR000001"]] [("SRR000001_1.fastq", "abc")] in
  let w := world0 (Some Demo.cache_SRR000001) in
  main E (Args (Some ["PRJNA1"; "PRJNA2"]) None) w = (Err TypeError, w).
Proof. reflexivity. Qed.

(** C10 (as the code has it).  With both options given, for lists of
    accessions and directories of any lengths, [main] behaves exactly (same
    result, same output, same warnings, same remote calls) as on the two
    lists cut to the length of the shorter one; [validate] is entered with
    the pairs made of the first entries of both lists, in order: with the
    first pair whenever there is one, with all the pairs up to the length
    of the shorter list when [main] returns, and never with a surplus
    entry.  With an option not given at all, [main] raises [TypeError] and
    changes nothing. *)
Theorem main_drops_surplus_arguments (E : env) (w : world) :
  (forall accs dirs : list string,
     let n := (length accs `min` length dirs)%nat in
     main E (Args (Some accs) (Some dirs)) w
       = main E (Args (Some (take n accs)) (Some (take n dirs))) w
     /\ exists k : nat,
          (k <= n)%nat
          /\ ((0 < n)%nat -> (0 < k)%nat)
          /\ validated (main E (Args (Some accs) (Some dirs)) w).2
             = (validated w ++ zip (take k accs) (take k dirs))%list
          /\ (is_Ok (main E (Args (Some accs) (Some dirs)) w).1 = true -> k = n))
  /\ (forall o : option (list string),
        main E (Args None o) w = (Err TypeError, w)
        /\ main E (Args o None) w = (Err TypeError, w)).
Proof.
  split.
  - intros accs dirs n. unfold main. simpl. split.
    + unfold n. now rewrite zip_take_min.
    + destruct (main_loop_enters_first E (zip accs dirs) w) as (k & Hk & Hpos & Hv & Hok).
      rewrite length_zip_with in Hk, Hok. exists k. split; [exact Hk|]. split; [|split].
      * intros Hn. apply Hpos. intros Hz.
        apply (f_equal length) in Hz. rewrite length_zip_with in Hz.
        simpl in Hz. unfold n in Hn. lia.
      * rewrite Hv, take_zip. reflexivity.
      * exact Hok.
  - intros o. split; [reflexivity|]. unfold main. simpl. now destruct o.
Qed.

(** C5 as stated fails: the search for the first pair is answered with
    status 500; [main] raises, the second pair is never entered, although
    [validate] on it would then complete. *)
Lemma main_sibling_pair_counterexample :
  let E := Demo.world_of (Demo.http_down_at 0) [["SRR000001"]]
             [("SRR000001_1.fastq", "abc")] in
  let r := main E (Args (Some ["PRJNA1"; "PRJNA2"]) (Some ["d"; "d"]))
             (world0 (Some Demo.cache_SRR000001)) in
  r.1 = Err (Exception
    "HTTP Failure when requesting search from bioproject: <Response [500]>: busy")
  /\ validated r.2 = [("PRJNA1", "d")]
  /\ calls r.2 = [Esearch "PRJNA1[BioProject]"]
  /\ (validate E "PRJNA2" "d" r.2).1 = Ok tt.
Proof. repeat split; vm_compute; reflexivity. Qed.

(** C5 (as the code has it).  When [validate] raises for one pair, after
    the pairs before it were processed, [main] raises that exception at
    once: the world is left as that [validate] left it, and the pairs after
    it are never entered. *)
Theorem main_stops_at_first_failing_pair (E : env) (accs dirs : list string)
    (pre rest : list (string * string)) (a d : string) (e : exn) (w w1 w2 : world) :
  zip accs dirs = (pre ++ (a, d) :: rest)%list ->
  main_loop E pre w = (Ok tt, w1) ->
  validate E a d w1 = (Err e, w2) ->
  main E (Args (Some accs) (Some dirs)) w = (Err e, w2)
  /\ validated w2 = (validated w ++ pre ++ [(a, d)])%list.
Proof.
  intros Hz Hpre Hv. unfold main. simpl. rewrite Hz, main_loop_app, Hpre.
  simpl. rewrite bind_run, Hv. split; [reflexivity|].
  pose proof (validate_trace E a d w1) as Ht. rewrite Hv in Ht. simpl in Ht.
  destruct (main_loop_trace E pre w) as (k & Hk & Hq & Hok).
  rewrite Hpre in Hq, Hok. simpl in *. rewrite Hok in Hq by reflexivity.
  rewrite firstn_all in Hq. rewrite Ht, Hq, <- app_assoc. reflexivity.
Qed.

(** C5 (as the code has it) on two pairs, the first of which fails. *)
Lemma main_stops_at_first_failing_pair_witness :
  let E := Demo.world_of (Demo.http_down_at 0) [["SRR000001"]]
             [("SRR000001_1.fastq", "abc")] in
  let w := world0 (Some Demo.cache_SRR000001) in
  exists w2,
    main E (Args (Some ["PRJNA1"; "PRJNA2"]) (Some ["d"; "d"])) w
    = (Err (Exception
         "HTTP Failure when requesting search from bioproject: <Response [500]>: busy"), w2)
    /\ validated w2 = (validated w ++ [] ++ [("PRJNA1", "d")])%list.
Proof.
  intros E w. eexists.
  apply (main_stops_at_first_failing_pair E ["PRJNA1"; "PRJNA2"] ["d"; "d"]
           [] [("PRJNA2", "d")] "PRJNA1" "d" _ w w).
  - reflexivity.
  - reflexivity.
  - vm_compute. reflexivity.
Defined.

(** * Further properties of the code *)

(** ** The retry executor, in every case *)

Lemma not_failing (o : outcome) :
  failing o = false -> exists r, o = Returns r /\ ok r = true.
Proof.
  destruct o as [e|r]; simpl; [discriminate|].
  intros H. exists r. split; [reflexivity|]. now apply negb_false_iff in H.
Qed.

Lemma retry_loop_succeeds (E : env) (description : string) (q : request) (k : nat) :
  forall (range : list nat) (w : world) (r : response),
  (k < length range)%nat ->
  (forall j : nat, (j < k)%nat ->
     failing (http_get E (length (calls w) + j) q) = true) ->
  http_get E (length (calls w) + k) q = Returns r ->
  ok r = true ->
  exists w',
    retry_loop description (requests_get E q) range w = (Ok r, w')
    /\ calls w' = (calls w ++ replicate (S k) q)%list
    /\ sleeps w' = (sleeps w ++ replicate k 60)%list
    /\ stdout w' = stdout w.
Proof.
  induction k as [|k IH]; intros range w r Hlen Hfail Hget Hok.
  - destruct range as [|i rest]; [simpl in Hlen; lia|].
    rewrite Nat.add_0_r in Hget. simpl retry_loop.
    rewrite (bind_Ok _ _ _ _ _ (retry_attempt_ok E description q i w r Hget Hok)).
    eexists. split; [reflexivity|]. simpl. rewrite app_nil_r. auto.
  - destruct range as [|i rest]; [simpl in Hlen; lia|].
    destruct (retry_attempt_failing E description q i w) as (w1 & H1 & C1 & S1 & O1 & _).
    { specialize (Hfail 0%nat). rewrite Nat.add_0_r in Hfail. apply Hfail. lia. }
    destruct (IH rest w1 r) as (w' & Hrun & C' & S' & O').
    + simpl in Hlen. lia.
    + intros j Hj. rewrite C1, length_app. simpl.
      replace (length (calls w) + 1 + j)%nat with (length (calls w) + S j)%nat by lia.
      apply Hfail. lia.
    + rewrite C1, length_app. simpl.
      replace (length (calls w) + 1 + k)%nat with (length (calls w) + S k)%nat by lia.
      exact Hget.
    + exact Hok.
    + exists w'. simpl retry_loop. rewrite (bind_Ok _ _ _ _ _ H1). cbn beta iota.
      split; [exact Hrun|].
      rewrite C', S', O', C1, S1, O1, <- !app_assoc. auto.
Qed.

(** X1. When the operation fails at its first [k] calls ([k] is 0, 1 or 2)
    and answers an OK response at the next one, [_retry_request] returns
    that response after exactly [k + 1] calls and [k] sleeps of 60 seconds,
    and prints nothing. *)
Theorem retry_request_succeeds_after_failures (E : env) (description : string)
    (q : request) (w : world) (k : nat) (r : response) :
  (k < 3)%nat ->
  (forall j : nat, (j < k)%nat ->
     failing (http_get E (length (calls w) + j) q) = true) ->
  http_get E (length (calls w) + k) q = Returns r ->
  ok r = true ->
  exists w',
    _retry_request description (requests_get E q) w = (Ok r, w')
    /\ calls w' = (calls w ++ replicate (S k) q)%list
    /\ sleeps w' = (sleeps w ++ replicate k 60)%list
    /\ stdout w' = stdout w.
Proof.
  intros Hk Hfail Hget Hok. unfold _retry_request.
  apply retry_loop_succeeds; auto.
Qed.

(** X1 on a service that answers status 500 twice and then 200. *)
Lemma retry_request_succeeds_after_failures_witness :
  let E := Env (fun n q => if (n <? 2)%nat then Returns (Response 500 "busy")
                           else Returns (Response 200 "F"))
               Demo.file_report (Demo.parse []) (fun c => c) None (Demo.ls []) (Demo.cat []) in
  exists w',
    _retry_request "efetch_from_ids" (requests_get E (Efetch None None)) (world0 None)
      = (Ok (Response 200 "F"), w')
    /\ calls w' = [Efetch None None; Efetch None None; Efetch None None]
    /\ sleeps w' = [60; 60]
    /\ stdout w' = [].
Proof.
  intros E.
  apply (retry_request_succeeds_after_failures E "efetch_from_ids" (Efetch None None)
           (world0 None) 2 (Response 200 "F")).
  - lia.
  - intros j Hj. destruct j as [|[|j]]; [reflexivity|reflexivity|lia].
  - reflexivity.
  - reflexivity.
Defined.

Lemma retry_attempt_some (description : string) (func : M response) (i : nat)
    (w w' : world) (r : response) :
  retry_attempt description func i w = (Ok (Some r), w') -> ok r = true.
Proof.
  unfold retry_attempt, try_except. rewrite bind_run.
  destruct (func w) as [[r'|e] w1].
  - destruct (ok r') eqn:Hok; simpl.
    + intros [= <- _]. exact Hok.
    + unfold retrying. destruct (i <? num_retries - 1)%nat; simpl; discriminate.
  - unfold retrying. destruct (i <? num_retries - 1)%nat; simpl; discriminate.
Qed.

Lemma retry_loop_returns_ok (description : string) (func : M response)
    (range : list nat) (w w' : world) (r : response) :
  retry_loop description func range w = (Ok r, w') -> ok r = true.
Proof.
  revert w. induction range as [|i rest IH]; intros w; simpl.
  - discriminate.
  - rewrite bind_run.
    destruct (retry_attempt description func i w) as [[[r'|]|e] w1] eqn:Ha.
    + intros [= <- _]. eapply retry_attempt_some, Ha.
    + apply IH.
    + discriminate.
Qed.

(** X2. Whatever the operation is, a response that [_retry_request]
    returns is OK: the test [if not res.ok] that follows the call in
    [efetch_accession_from_ids] can never fire. *)
Theorem retry_request_returns_ok (description : string) (func : M response)
    (w w' : world) (r : response) :
  _retry_request description func w = (Ok r, w') -> ok r = true.
Proof. apply retry_loop_returns_ok. Qed.

(** X2 on a service that answers at once. *)
Lemma retry_request_returns_ok_witness :
  ok (Response 200 "F") = true.
Proof.
  apply (retry_request_returns_ok "efetch_from_ids"
           (requests_get (Demo.world_of Demo.http_up [] []) (Efetch None None))
           (world0 None)
           (record_call (Efetch None None) (world0 None))).
  reflexivity.
Defined.

Lemma retry_loop_bounded (E : env) (description : string) (q : request) :
  forall (range : list nat) (w : world),
  range <> [] ->
  exists k s : nat,
    (1 <= k <= length range)%nat
    /\ (s = k \/ S s = k)
    /\ calls (retry_loop description (requests_get E q) range w).2
       = (calls w ++ replicate k q)%list
    /\ sleeps (retry_loop description (requests_get E q) range w).2
       = (sleeps w ++ replicate s 60)%list.
Proof.
  induction range as [|i rest IH]; intros w Hne; [congruence|].
  simpl retry_loop. rewrite bind_run.
  destruct (failing (http_get E (length (calls w)) q)) eqn:Hf.
  - destruct (retry_attempt_failing E description q i w Hf) as (w1 & H1 & C1 & S1 & _).
    rewrite H1. destruct rest as [|i' rest'].
    + exists 1%nat, 1%nat. simpl. repeat split; auto; lia.
    + destruct (IH w1) as (k & s & Hk & Hs & Hc & Hsl); [congruence|].
      exists (S k), (S s). rewrite Hc, Hsl, C1, S1, <- !app_assoc. simpl in *.
      repeat split; auto; lia.
  - destruct (not_failing _ Hf) as (r & Hr & Hok).
    rewrite (retry_attempt_ok E description q i w r Hr Hok).
    exists 1%nat, 0%nat. simpl. rewrite app_nil_r. repeat split; auto; lia.
Qed.

(** X3. Whatever the remote service does, one [_retry_request] makes at
    least one and at most three calls of its request and sleeps at most
    three times 60 seconds: as many times as it calls, or once less when
    the last call succeeds. *)
Theorem retry_request_is_bounded (E : env) (description : string) (q : request)
    (w : world) :
  exists k s : nat,
    (1 <= k <= 3)%nat
    /\ (s = k \/ S s = k)
    /\ calls (_retry_request description (requests_get E q) w).2
       = (calls w ++ replicate k q)%list
    /\ sleeps (_retry_request description (requests_get E q) w).2
       = (sleeps w ++ replicate s 60)%list.
Proof.
  unfold _retry_request.
  destruct (retry_loop_bounded E description q (seq 0 num_retries) w) as (k & s & H);
    [discriminate|].
  exists k, s. exact H.
Qed.

(** ** The run resolver: errors of the two responses *)

(** X4. When the fetch response holds an [ERROR] node, whatever records
    it holds besides, [efetch_accession_from_ids] raises the exception that
    quotes the text of that node, after printing that the accessions were
    received. *)
Theorem efetch_error_node_raises (E : env) (webenv : option string)
    (accessions : option (list string)) (num_ids : nat) (w w1 : world)
    (r : response) (root err : element) :
  _retry_request "efetch_from_ids" (requests_get E (Efetch webenv (add_api_key E)))
    (print "Fetching accession using SRA IDs from NCBI..." w).2 = (Ok r, w1) ->
  fromstring E (text r) = Ok root ->
  find root "ERROR" = Some err ->
  efetch_accession_from_ids E webenv accessions num_ids w
  = (Err (Exception ("Error when fetching metadata: " +:+ str_option (text_of err))),
     (print "Got accession using SRA IDs!" w1).2).
Proof.
  intros Hr Hroot Herr. unfold efetch_accession_from_ids.
  rewrite print_bind, bind_run, Hr.
  rewrite (retry_loop_returns_ok _ _ _ _ _ _ Hr). cbn [negb].
  rewrite lift_bind, Hroot, print_bind, Herr. reflexivity.
Qed.

(** X4 on a fetch response that holds only an [ERROR] node. *)
Lemma efetch_error_node_raises_witness :
  let E := Env Demo.http_up Demo.file_report
             (fun s => Ok (Element "EXPERIMENT_PACKAGE_SET" [] None
                             [Element "ERROR" [] (Some "Empty result") []]))
             (fun c => c) None (Demo.ls []) (Demo.cat []) in
  (efetch_accession_from_ids E (Some "MCID_1") None 1 (world0 None)).1
  = Err (Exception "Error when fetching metadata: Empty result").
Proof.
  intros E.
  erewrite (efetch_error_node_raises E (Some "MCID_1") None 1 (world0 None) _
              (Response 200 "F") _ (Element "ERROR" [] (Some "Empty result") [])).
  - reflexivity.
  - vm_compute. reflexivity.
  - reflexivity.
  - reflexivity.
Defined.

(** X5. When the search response parses but has no [IdList] node, or no
    [WebEnv] node, [fetch_runs_from_bioproject] raises the exception that
    names the missing node and quotes the response; the search is the only
    remote call made: the fetch is never requested. *)
Theorem search_response_without_ids_or_session (E : env) (accession : string)
    (w : world) (r : response) (root : element) :
  http_get E (length (calls w)) (Esearch (accession +:+ "[BioProject]")) = Returns r ->
  ok r = true ->
  fromstring E (text r) = Ok root ->
  find root "IdList" = None \/ find root "WebEnv" = None ->
  (fetch_runs_from_bioproject E accession w).1
  = Err (Exception ((if find root "IdList" is None
                     then "No IdList element found in response: "
                     else "No WebEnv element found in response: ") +:+ text r))
  /\ calls (fetch_runs_from_bioproject E accession w).2
     = (calls w ++ [Esearch (accession +:+ "[BioProject]")])%list.
Proof.
  intros Hget Hok Hroot Hmiss.
  assert (Hrun : exists w',
    fetch_runs_from_bioproject E accession w
    = (Err (Exception ((if find root "IdList" is None
                        then "No IdList element found in response: "
                        else "No WebEnv element found in response: ") +:+ text r)), w')
    /\ calls w' = (calls w ++ [Esearch (accession +:+ "[BioProject]")])%list).
  { unfold fetch_runs_from_bioproject.
    rewrite bind_run. unfold requests_get. rewrite Hget, Hok. cbn [negb].
    rewrite lift_bind, Hroot, print_bind.
    destruct (find root "IdList") as [idl|]; [|eexists; split; reflexivity].
    destruct Hmiss as [Hm|Hm]; [discriminate|]. rewrite Hm.
    destruct (Z.of_nat (length (map text_of (children_of idl))) =? retmax);
      eexists; split; reflexivity. }
  destruct Hrun as (w' & -> & Hc). auto.
Qed.

(** X5 on a search response with an [IdList] and no [WebEnv]. *)
Lemma search_response_without_ids_or_session_witness :
  let E := Env Demo.http_up Demo.file_report
             (fun s => Ok (Element "eSearchResult" [] None
                             [Element "IdList" [] None []]))
             (fun c => c) None (Demo.ls []) (Demo.cat []) in
  (fetch_runs_from_bioproject E "PRJNA1" (world0 None)).1
  = Err (Exception "No WebEnv element found in response: S")
  /\ calls (fetch_runs_from_bioproject E "PRJNA1" (world0 None)).2
     = [Esearch "PRJNA1[BioProject]"].
Proof.
  intros E.
  apply (search_response_without_ids_or_session E "PRJNA1" (world0 None)
           (Response 200 "S")
           (Element "eSearchResult" [] None [Element "IdList" [] None []])).
  - reflexivity.
  - reflexivity.
  - reflexivity.
  - right. reflexivity.
Defined.

(** ** The run resolver: the run list *)

Lemma run_loop_frames_ok (accessions_set : option (gset string)) (d : nat)
    (runs : list element) :
  forall st st' : frames,
  (d < length (heap st))%nat ->
  frames_ok st ->
  run_loop accessions_set d runs st = Ok st' ->
  frames_ok st' /\ length (heap st') = length (heap st).
Proof.
  induction runs as [|run rest IH]; intros st st' Hd Hok; simpl.
  - intros [= <-]. auto.
  - unfold mbind at 1, result_bind.
    destruct (attrib_get run "accession") as [a|e]; [|discriminate].
    match goal with |- (if ?b then _ else _) = _ -> _ => destruct b end;
      [|now apply IH].
    simpl. intros Hrun. apply IH in Hrun.
    + simpl in Hrun. now rewrite length_alter in Hrun.
    + simpl. now rewrite length_alter.
    + unfold frames_ok. simpl.
      destruct (lookup_lt_is_Some_2 (heap st) d Hd) as [m0 Hm0].
      apply Forall_app. split.
      * eapply Forall_impl; [exact Hok|]. intros r (m & b & Hm & Hb).
        destruct (decide (r = d)) as [->|Hne].
        -- exists (<["run" := PyStr a]> m), a. rewrite list_lookup_alter_eq, Hm.
           split; [reflexivity|apply lookup_insert_eq].
        -- exists m, b. now rewrite list_lookup_alter_ne by congruence.
      * constructor; [|constructor].
        exists (<["run" := PyStr a]> m0), a. rewrite list_lookup_alter_eq, Hm0.
        split; [reflexivity|apply lookup_insert_eq].
Qed.

Lemma pkg_loop_frames_ok (accessions_set : option (gset string)) (pkgs : list element) :
  forall st st' : frames,
  frames_ok st ->
  pkg_loop accessions_set pkgs st = Ok st' ->
  frames_ok st'.
Proof.
  induction pkgs as [|pkg rest IH]; intros st st' Hok; simpl.
  - now intros [= <-].
  - unfold mbind, result_bind.
    destruct (run_loop _ _ _ _) as [st1|e] eqn:Hrun; [|discriminate].
    apply run_loop_frames_ok in Hrun as [Hok1 _].
    + now apply IH.
    + simpl. rewrite length_app. simpl. lia.
    + unfold frames_ok in *. simpl. eapply Forall_impl; [exact Hok|].
      intros r (m & a & Hm & Ha). exists m, a. split; [|exact Ha].
      now apply lookup_app_l_Some.
Qed.

Lemma frames_ok_column (st : frames) (runs : list pyval) :
  frames_ok st ->
  df_column (pd_DataFrame st) "run" = Ok runs ->
  runs <> [] /\ Forall (fun v => exists a, v = PyStr a) runs.
Proof.
  unfold frames_ok, df_column, pd_DataFrame. intros Hok.
  destruct (existsb _ _) eqn:Hex; [|discriminate]. intros [= <-]. split.
  - destruct (data_frames st); [discriminate Hex|discriminate].
  - rewrite map_map. apply List.Forall_map.
    eapply Forall_impl; [exact Hok|].
    intros r (m & a & Hm & Ha). exists a. rewrite Hm. simpl. now rewrite Ha.
Qed.

Lemma efetch_returns_frames (E : env) (webenv : option string)
    (accessions : option (list string)) (num_ids : nat) (w w' : world) (df : DataFrame) :
  efetch_accession_from_ids E webenv accessions num_ids w = (Ok df, w') ->
  exists st, frames_ok st /\ df = pd_DataFrame st.
Proof.
  unfold efetch_accession_from_ids. rewrite print_bind, bind_run.
  destruct (_retry_request _ _ _) as [[r|e] w1]; [|discriminate].
  destruct (negb (ok r)); [discriminate|].
  rewrite lift_bind. destruct (fromstring E (text r)) as [root|e]; [|discriminate].
  rewrite print_bind. destruct (find root "ERROR"); [discriminate|].
  rewrite lift_bind.
  destruct (pkg_loop _ _ _) as [st|e] eqn:Hloop; [|discriminate].
  intros [= <- _]. exists st. split; [|reflexivity].
  eapply pkg_loop_frames_ok; [|exact Hloop]. constructor.
Qed.

(** X6. A run list that [fetch_runs_from_bioproject] returns is never
    empty and holds only strings (never [None], never a missing value): a
    project whose records have no run makes it raise instead ([KeyError]
    for the column [run] of the empty table). *)
Theorem fetch_runs_returns_strings (E : env) (accession : string) (w w' : world)
    (runs : list pyval) :
  fetch_runs_from_bioproject E accession w = (Ok runs, w') ->
  runs <> [] /\ Forall (fun v => exists a, v = PyStr a) runs.
Proof.
  unfold fetch_runs_from_bioproject. rewrite bind_run.
  destruct (requests_get E _ w) as [[r|e] w1]; [|discriminate].
  destruct (negb (ok r)); [discriminate|].
  rewrite lift_bind. destruct (fromstring E (text r)) as [root|e]; [|discriminate].
  rewrite print_bind. destruct (find root "IdList") as [idl|]; [|discriminate].
  rewrite bind_run.
  match goal with |- context [(if ?b then _ else _) ?w0] =>
    destruct ((if b then print _ else mret tt) w0) as [[[]|e] w2]; [|discriminate]
  end.
  destruct (find root "WebEnv") as [we|]; [|discriminate].
  rewrite bind_run.
  destruct (efetch_accession_from_ids _ _ _ _ _) as [[df|e] w3] eqn:Hfetch; [|discriminate].
  apply efetch_returns_frames in Hfetch as (st & Hok & ->).
  unfold lift. intros [= Hcol _]. now apply frames_ok_column with st.
Qed.

(** X6 on a project with one run. *)
Lemma fetch_runs_returns_strings_witness :
  [PyStr "SRR000001"] <> [] /\ Forall (fun v => exists a, v = PyStr a) [PyStr "SRR000001"].
Proof.
  eapply (fetch_runs_returns_strings (Demo.world_of Demo.http_up [["SRR000001"]] [])
            "PRJNA1" (world0 None)).
  vm_compute. reflexivity.
Defined.

(** X6, the other side: a fetch response with one record and no run. *)
Example fetch_runs_without_runs :
  (fetch_runs_from_bioproject (Demo.world_of Demo.http_up [[]] []) "PRJNA1" (world0 None)).1
  = Err (KeyError "run").
Proof. vm_compute. reflexivity. Qed.

(** ** The run resolver: the run table, record by record *)

Lemma kept_cons (accessions_set : option (gset string)) (a : string) (accs : list string) :
  kept accessions_set (a :: accs)
  = if match accessions_set with
       | None => true
       | Some s => bool_decide (a ∈ s)
       end
    then a :: kept accessions_set accs
    else kept accessions_set accs.
Proof.
  destruct accessions_set as [s|]; simpl; [|reflexivity].
  rewrite filter_cons. destruct (decide (a ∈ s)) as [H|H].
  - now rewrite bool_decide_eq_true_2.
  - now rewrite bool_decide_eq_false_2.
Qed.

Lemma run_loop_kept (accessions_set : option (gset string)) (d : nat)
    (runs : list element) (accs : list string) (st : frames) :
  Forall2 (fun run a => attrib_get run "accession" = Ok a) runs accs ->
  run_loop accessions_set d runs st
  = Ok (Frames (foldl (fun h a => alter (insert "run" (PyStr a)) d h) (heap st)
                      (kept accessions_set accs))
               (data_frames st ++ replicate (length (kept accessions_set accs)) d)%list).
Proof.
  intros H. revert st. induction H as [|run a runs accs Ha _ IH]; intros st.
  - destruct accessions_set; simpl; rewrite app_nil_r; now destruct st.
  - simpl run_loop. unfold mbind at 1, result_bind. rewrite Ha, kept_cons.
    match goal with |- (if ?b then _ else _) = _ => destruct b end; [|apply IH].
    simpl. rewrite IH. simpl. now rewrite <- app_assoc.
Qed.

Lemma foldl_alter_last (h : list (gmap string pyval)) (accs : list string) :
  forall m : gmap string pyval,
  foldl (fun h' a => alter (insert "run" (PyStr a)) (length h) h') (h ++ [m])%list accs
  = (h ++ [foldl (fun m a => <["run" := PyStr a]> m) m accs])%list.
Proof.
  induction accs as [|a accs IH]; intros m; simpl; [reflexivity|].
  rewrite <- IH. f_equal.
  rewrite alter_app_r_alt by lia. now rewrite Nat.sub_diag.
Qed.

Lemma rows_of_new_object (h : list (gmap string pyval)) (m : gmap string pyval)
    (df : list nat) (n : nat) :
  Forall (fun r => (r < length h)%nat) df ->
  pd_DataFrame (Frames (h ++ [m])%list (df ++ replicate n (length h))%list)
  = (pd_DataFrame (Frames h df) ++ replicate n m)%list.
Proof.
  intros Hdf. unfold pd_DataFrame. simpl. rewrite map_app. f_equal.
  - apply map_ext_Forall. eapply Forall_impl; [exact Hdf|].
    intros r Hr. simpl. now rewrite lookup_app_l.
  - induction n as [|n IH]; simpl; [reflexivity|]. rewrite IH. f_equal.
    rewrite lookup_app_r by lia. now rewrite Nat.sub_diag.
Qed.

Lemma record_rows_foldl (accessions_set : option (gset string)) (accs : list string) :
  replicate (length (kept accessions_set accs))
            (foldl (fun m a => <["run" := PyStr a]> m) ∅ (kept accessions_set accs))
  = record_rows accessions_set accs.
Proof.
  unfold record_rows.
  destruct (kept accessions_set accs) as [|a l] using rev_ind; [reflexivity|].
  rewrite last_snoc. now rewrite foldl_insert_run by auto.
Qed.

Lemma pkg_loop_rows_from (accessions_set : option (gset string))
    (pkgs : list element) (accss : list (list string)) :
  Forall2 (fun pkg accs =>
             Forall2 (fun run a => attrib_get run "accession" = Ok a)
                     (findall2 pkg "RUN_SET" "RUN") accs) pkgs accss ->
  forall st : frames,
  Forall (fun r => (r < length (heap st))%nat) (data_frames st) ->
  exists st',
    pkg_loop accessions_set pkgs st = Ok st'
    /\ pd_DataFrame st'
       = (pd_DataFrame st ++ concat (map (record_rows accessions_set) accss))%list.
Proof.
  induction 1 as [|pkg accs pkgs accss Hpkg _ IH]; intros st Hdf; simpl.
  - exists st. rewrite app_nil_r. auto.
  - rewrite (run_loop_kept _ _ _ _ _ Hpkg). simpl.
    rewrite foldl_alter_last.
    match goal with |- context [pkg_loop _ _ ?st1] => destruct (IH st1) as (st' & Hrun & Hrows) end.
    + simpl. rewrite length_app. simpl. apply Forall_app. split.
      * eapply Forall_impl; [exact Hdf|]. intros r Hr. simpl in Hr. lia.
      * apply Forall_replicate. lia.
    + exists st'. split; [exact Hrun|].
      rewrite Hrows, rows_of_new_object by exact Hdf.
      rewrite record_rows_foldl, <- app_assoc. now destruct st.
Qed.

(** X7. For a fetch response in which every run has its accession, the
    run table has, record by record in the order of the response, one row
    for each run of the record that passes the accession filter (every run
    without a filter), and all the rows of a record hold the last such run
    of that record. *)
Theorem run_table_rows (accessions_set : option (gset string))
    (pkgs : list element) (accss : list (list string)) :
  Forall2 (fun pkg accs =>
             Forall2 (fun run a => attrib_get run "accession" = Ok a)
                     (findall2 pkg "RUN_SET" "RUN") accs) pkgs accss ->
  exists st,
    pkg_loop accessions_set pkgs (Frames [] []) = Ok st
    /\ pd_DataFrame st = concat (map (record_rows accessions_set) accss).
Proof.
  intros H. destruct (pkg_loop_rows_from accessions_set pkgs accss H (Frames [] []))
    as (st & Hrun & Hrows); [constructor|].
  exists st. split; [exact Hrun|exact Hrows].
Qed.

(** X7 on two records, three runs and one run, with a filter that keeps
    the first two runs of the first record and the run of the second. *)
Lemma run_table_rows_witness :
  let keep : option (gset string) := Some {["SRR000001"; "SRR000002"; "SRR000004"]} in
  exists st,
    pkg_loop keep
      [Demo.pkg_el ["SRR000001"; "SRR000002"; "SRR000003"]; Demo.pkg_el ["SRR000004"]]
      (Frames [] []) = Ok st
    /\ pd_DataFrame st
       = concat (map (record_rows keep)
                     [["SRR000001"; "SRR000002"; "SRR000003"]; ["SRR000004"]]).
Proof.
  intros keep. apply run_table_rows. repeat constructor.
Defined.

Example record_rows_demo :
  record_rows (Some {["SRR000001"; "SRR000002"]}) ["SRR000001"; "SRR000002"; "SRR000003"]
  = [ {["run" := PyStr "SRR000002"]}; {["run" := PyStr "SRR000002"]} ]
  /\ record_rows None [] = [].
Proof. split; vm_compute; reflexivity. Qed.

(** ** The checksum catalog: loading the cache *)

Lemma load_cache_one (line : string) (st : list string * gmap string (list string)) :
  load_cache [line] st
  = match split tab line with
    | _ :: _ :: _ =>
        Ok ((st.1 ++ [line_key line])%list, <[line_key line := line_checksums line]> st.2)
    | _ => Err IndexError
    end.
Proof.
  unfold line_key, line_checksums. simpl.
  destruct (split_cons tab line) as (key & t & ->). rewrite py_index_0.
  destruct t as [|field t]; [reflexivity|]. rewrite py_index_1. reflexivity.
Qed.

Lemma load_cache_error (lines : list string)
    (st : list string * gmap string (list string)) (e : exn) :
  load_cache lines st = Err e -> e = IndexError.
Proof.
  revert st. induction lines as [|line lines IH]; intros st; simpl; [discriminate|].
  unfold mbind, result_bind.
  destruct (py_index (split tab line) 0) eqn:H0;
    [|intros [= <-]; eapply py_index_error, H0].
  destruct (py_index (split tab line) 1) eqn:H1;
    [|intros [= <-]; eapply py_index_error, H1].
  apply IH.
Qed.

(** X8. When the cache loads, the cached runs are the first fields of its
    lines, in order, and the catalog maps a run to the checksums of the
    last line that starts with it: a later line for the same run replaces
    an earlier one, and a run has an entry exactly when it is listed. *)
Theorem load_cache_last_line_wins (lines keys : list string)
    (dic : gmap string (list string)) :
  load_cache lines ([], ∅) = Ok (keys, dic) ->
  keys = map line_key lines
  /\ forall k : string,
       dic !! k = line_checksums <$> last (filter (fun line => line_key line = k) lines).
Proof.
  revert keys dic. induction lines as [|line lines IH] using rev_ind; intros keys dic.
  - simpl. intros [= <- <-]. split; [reflexivity|]. intros k. apply lookup_empty.
  - rewrite load_cache_app. unfold mbind, result_bind.
    destruct (load_cache lines ([], ∅)) as [[keys1 dic1]|e]; [|discriminate].
    destruct (IH keys1 dic1 eq_refl) as [Hk Hd].
    rewrite load_cache_one.
    destruct (split tab line) as [|f1 [|f2 t]] eqn:Hs; try discriminate.
    simpl. intros [= <- <-]. split.
    + rewrite map_app, Hk. reflexivity.
    + intros k. rewrite filter_app, filter_cons, filter_nil.
      destruct (decide (line_key line = k)) as [<-|Hne].
      * rewrite last_snoc. apply lookup_insert_eq.
      * rewrite app_nil_r, lookup_insert_ne by exact Hne. apply Hd.
Qed.

(** X8 on a cache with two lines for SRR000001. *)
Lemma load_cache_last_line_wins_witness :
  let lines := readlines ("SRR000001" +:+ TAB +:+ "old" +:+ NL +:+
                          "SRR000002" +:+ TAB +:+ "abc;def" +:+ NL +:+
                          "SRR000001" +:+ TAB +:+ "new" +:+ NL) in
  let dic : gmap string (list string) :=
    {["SRR000001" := ["new" +:+ NL]; "SRR000002" := ["abc"; "def" +:+ NL]]} in
  ["SRR000001"; "SRR000002"; "SRR000001"] = map line_key lines
  /\ forall k : string,
       dic !! k = line_checksums <$> last (filter (fun line => line_key line = k) lines).
Proof.
  intros lines dic. apply load_cache_last_line_wins. vm_compute. reflexivity.
Defined.

Lemma load_cache_without_tab (lines : list string) (line : string)
    (st : list string * gmap string (list string)) :
  line ∈ lines -> occurs tab line = false -> load_cache lines st = Err IndexError.
Proof.
  intros Hin Htab.
  destruct (load_cache lines st) as [st'|e] eqn:Hload;
    [|f_equal; eapply load_cache_error, Hload].
  exfalso. revert st Hload. induction lines as [|x lines IH]; intros st.
  - now apply elem_of_nil in Hin.
  - change (x :: lines) with ([x] ++ lines)%list. rewrite load_cache_app, load_cache_one.
    apply elem_of_cons in Hin as [<-|Hin].
    + now rewrite (split_no_sep tab line Htab).
    + destruct (split tab x) as [|f1 [|f2 t]]; try discriminate. simpl. now apply IH.
Qed.

(** X9. A cache file with a line that has no tab (an empty line, for one)
    is not skipped over: once the run list is resolved,
    [get_md5_from_ena] with [cache=True] raises [IndexError], before any
    file report is requested. *)
Theorem cache_line_without_tab_raises (E : env) (accession : string) (w w1 : world)
    (runs : list pyval) (content line : string) :
  fetch_runs_from_bioproject E accession
    (print "Start generating md5 dictionary..." w).2 = (Ok runs, w1) ->
  md5_cache w1 = Some content ->
  line ∈ readlines content ->
  occurs tab line = false ->
  get_md5_from_ena E accession true w
  = (Err IndexError, (print "Using cache to search md5..." w1).2).
Proof.
  intros Hf Hc Hin Htab. unfold get_md5_from_ena.
  rewrite print_bind, bind_run, Hf, print_bind, bind_run.
  unfold read_cache_lines. simpl md5_cache. rewrite Hc.
  rewrite lift_bind, (load_cache_without_tab _ line _ Hin Htab). reflexivity.
Qed.

(** X9 on a cache that ends with an empty line. *)
Lemma cache_line_without_tab_raises_witness :
  let E := Demo.world_of Demo.http_up [["SRR000001"]] [] in
  (get_md5_from_ena E "PRJNA1" true (world0 (Some (Demo.cache_SRR000001 +:+ NL)))).1
  = Err IndexError.
Proof.
  intros E.
  erewrite (cache_line_without_tab_raises E "PRJNA1" _ _ _ (Demo.cache_SRR000001 +:+ NL) NL).
  - reflexivity.
  - vm_compute. reflexivity.
  - reflexivity.
  - vm_compute. repeat constructor.
  - reflexivity.
Defined.

(** ** The cache file over a run of the program *)

Lemma keeps_cache_wget E a : keeps md5_cache (wget_stdout E a).
Proof. intros w. reflexivity. Qed.

Lemma keeps_cache_read_cache : keeps md5_cache read_cache_lines.
Proof.
  intros w. unfold read_cache_lines.
  destruct (md5_cache w) eqn:H; simpl; congruence.
Qed.

Lemma keeps_cache_enter a d : keeps md5_cache (enter_validate a d).
Proof. intros w. reflexivity. Qed.

Lemma keeps_cache_query_loop E l st : keeps md5_cache (query_loop E l st).
Proof.
  revert st. induction l as [|fastq l IH]; intros st; simpl; keeps_tac;
    auto using keeps_cache_wget.
Qed.

Lemma keeps_cache_validate_loop E dir md5_dic n l :
  keeps md5_cache (validate_loop E dir md5_dic n l).
Proof.
  revert n. induction l as [|fastq l IH]; intros n; simpl; [keeps_tac|].
  apply keeps_bind; [unfold validate_file, check_md5sum; keeps_tac|exact IH].
Qed.

(** What [get_md5_from_ena] does after the run list is resolved, in terms
    of the query loop: [None] when no query is needed. *)
Lemma query_and_append_cache (E : env) (l : list pyval)
    (dic : gmap string (list string)) (w0 w2 : world) :
  md5_cache w2 = md5_cache w0 ->
  let out := (query_loop E l ([], dic) ≫= fun st =>
                append_cache st.1;; print "md5 dictionary generated!";; mret st.2) w2 in
  match out.1 with
  | Err _ => md5_cache out.2 = md5_cache w0
  | Ok _ =>
      exists lines : list string,
        md5_cache out.2
        = Some (default "" (md5_cache w0)
                +:+ String.concat "" (map (fun md5 => md5 +:+ NL) lines))
  end.
Proof.
  intros H2 out. subst out. rewrite bind_run.
  pose proof (keeps_cache_query_loop E l ([], dic) w2) as Hq.
  destruct (query_loop E l ([], dic) w2) as [[st|e] w3]; simpl in Hq.
  - exists st.1. simpl. now rewrite Hq, H2.
  - simpl. now rewrite Hq.
Qed.

(** The cache file after [get_md5_from_ena]: untouched when it raises or
    when no query was needed, otherwise extended by lines. *)
Lemma get_md5_from_ena_outcome (E : env) (accession : string) (cache : bool) (w : world) :
  match (get_md5_from_ena E accession cache w).1 with
  | Err _ => md5_cache (get_md5_from_ena E accession cache w).2 = md5_cache w
  | Ok _ =>
      exists lines : list string,
        md5_cache (get_md5_from_ena E accession cache w).2 = md5_cache w
        \/ md5_cache (get_md5_from_ena E accession cache w).2
           = Some (default "" (md5_cache w)
                   +:+ String.concat "" (map (fun md5 => md5 +:+ NL) lines))
  end.
Proof.
  pattern (get_md5_from_ena E accession cache w).
  match goal with |- ?Q _ => set (P := Q) end.
  assert (Query : forall (l : list pyval) (dic : gmap string (list string)) (w2 : world),
    md5_cache w2 = md5_cache w ->
    P ((query_loop E l ([], dic) ≫= fun st =>
          append_cache st.1;; print "md5 dictionary generated!";; mret st.2) w2)).
  { intros l dic w2 H2. pose proof (query_and_append_cache E l dic w w2 H2) as H.
    subst P. cbv beta zeta in *.
    destruct (_.1); [|exact H]. destruct H as [lines H]. exists lines. now right. }
  unfold get_md5_from_ena. rewrite print_bind, bind_run.
  pose proof (keeps_cache_fetch_runs E accession
                (print "Start generating md5 dictionary..." w).2) as Hk.
  destruct (fetch_runs_from_bioproject E accession _) as [[runs|e] w1];
    simpl in Hk; [|exact Hk].
  destruct cache.
  - rewrite print_bind, bind_run. unfold read_cache_lines. simpl md5_cache.
    destruct (md5_cache w1) as [content|] eqn:Hc; [|subst P; simpl; congruence].
    rewrite lift_bind. destruct (load_cache _ _) as [loaded|e];
      [|subst P; simpl; congruence].
    destruct (length _ =? 0)%nat.
    + subst P. simpl. exists []. left. congruence.
    + rewrite print_bind. apply Query. simpl. congruence.
  - rewrite print_bind. apply Query. simpl. exact Hk.
Qed.

(** X10. When [get_md5_from_ena] raises, with or without the cache, the
    cache file is left exactly as it was: the lines of the runs queried
    before the failure are not written. *)
Theorem failed_catalog_leaves_cache_unchanged (E : env) (accession : string)
    (cache : bool) (w : world) (e : exn) :
  (get_md5_from_ena E accession cache w).1 = Err e ->
  md5_cache (get_md5_from_ena E accession cache w).2 = md5_cache w.
Proof.
  intros He. pose proof (get_md5_from_ena_outcome E accession cache w) as H.
  now rewrite He in H.
Qed.

(** X10 on two runs, the second of which gets an empty file report. *)
Lemma failed_catalog_leaves_cache_unchanged_witness :
  let E := Env Demo.http_up
             (fun n acc => if (n =? 2)%nat then Demo.file_report n acc else "")
             (Demo.parse [["SRR000001"]; ["SRR000002"]]) (fun c => c) None
             (Demo.ls []) (Demo.cat []) in
  let w := world0 (Some "") in
  (get_md5_from_ena E "PRJNA1" false w).1 = Err IndexError
  /\ calls (get_md5_from_ena E "PRJNA1" false w).2
     = [Esearch "PRJNA1[BioProject]"; Efetch (Some "MCID_1") None;
        Filereport "SRR000001"; Filereport "SRR000002"]
  /\ md5_cache (get_md5_from_ena E "PRJNA1" false w).2 = md5_cache w.
Proof.
  intros E w. split; [vm_compute; reflexivity|]. split; [vm_compute; reflexivity|].
  apply (failed_catalog_leaves_cache_unchanged E "PRJNA1" false w IndexError).
  vm_compute. reflexivity.
Defined.

Lemma keeps_cache_grows {A} (m : M A) : keeps md5_cache m -> cache_grows m.
Proof. intros Hk w c Hc. exists "". now rewrite Hk, append_empty_r. Qed.

Lemma cache_grows_bind {A B} (m : M A) (f : A -> M B) :
  cache_grows m -> (forall a, cache_grows (f a)) -> cache_grows (m ≫= f).
Proof.
  intros Hm Hf w c Hc. rewrite bind_run. destruct (Hm w c Hc) as [s1 H1].
  destruct (m w) as [[a|e] w1]; simpl in H1.
  - destruct (Hf a w1 _ H1) as [s2 H2]. exists (s1 +:+ s2). now rewrite H2, append_assoc.
  - exists s1. exact H1.
Qed.

Lemma cache_grows_get_md5 (E : env) (accession : string) (cache : bool) :
  cache_grows (get_md5_from_ena E accession cache).
Proof.
  intros w c Hc. pose proof (get_md5_from_ena_outcome E accession cache w) as H.
  destruct (_.1).
  - destruct H as [lines [H|H]]; rewrite H, Hc; [exists ""; now rewrite append_empty_r|].
    eexists. reflexivity.
  - rewrite H, Hc. exists "". now rewrite append_empty_r.
Qed.

Lemma cache_grows_validate (E : env) (accession dir : string) :
  cache_grows (validate E accession dir).
Proof.
  unfold validate.
  apply cache_grows_bind; [apply keeps_cache_grows, keeps_cache_enter|intros _].
  apply cache_grows_bind; [apply keeps_cache_grows; keeps_tac|intros l].
  apply cache_grows_bind; [apply cache_grows_get_md5|intros md5_dic].
  apply keeps_cache_grows. keeps_tac. apply keeps_cache_validate_loop.
Qed.

(** X11. The cache file is append-only over a whole invocation: whatever
    the remote services answer and whether [main] returns or raises, the
    content the file had before is still there, unchanged, at the start of
    its content afterwards. *)
Theorem main_only_appends_to_cache (E : env) (a : args) (w : world) (c : string) :
  md5_cache w = Some c ->
  exists s, md5_cache (main E a w).2 = Some (c +:+ s).
Proof.
  revert w c. change (cache_grows (main E a)). unfold main.
  destruct (args_accession a) as [accs|]; [|apply keeps_cache_grows; keeps_tac].
  destruct (args_dir a) as [dirs|]; [|apply keeps_cache_grows; keeps_tac].
  induction (zip accs dirs) as [|study l IH]; simpl.
  - apply keeps_cache_grows. keeps_tac.
  - apply cache_grows_bind; [apply cache_grows_validate|intros _; exact IH].
Qed.

(** X11 on a cache of one line and a project with another run. *)
Lemma main_only_appends_to_cache_witness :
  let E := Demo.world_of Demo.http_up [["SRR000002"]] [("SRR000002_1.fastq", "abc")] in
  exists s,
    md5_cache (main E (Args (Some ["PRJNA1"]) (Some ["d"]))
                 (world0 (Some Demo.cache_SRR000001))).2
    = Some (Demo.cache_SRR000001 +:+ s).
Proof.
  intros E. apply (main_only_appends_to_cache E). reflexivity.
Defined.

Example main_appends_one_line :
  let E := Demo.world_of Demo.http_up [["SRR000002"]] [("SRR000002_1.fastq", "abc")] in
  md5_cache (main E (Args (Some ["PRJNA1"]) (Some ["d"]))
               (world0 (Some Demo.cache_SRR000001))).2
  = Some (Demo.cache_SRR000001 +:+ "SRR000002" +:+ TAB +:+ "abc;def" +:+ NL).
Proof. vm_compute. reflexivity. Qed.

(** ** The checksum catalog: the query loop *)




(** X13. A file report without a second line (no newline in what [wget]
    printed, as for an unknown accession or a failed download), or whose
    second line has no tab, makes the query loop raise [IndexError] at
    that run: the runs after it are not queried. *)
Theorem malformed_file_report_raises (E : env) (s : string) (rest : list pyval)
    (st : list string * gmap string (list string)) (w : world) :
  let report := wget E (length (calls w)) (run_base s) in
  occurs nl report = false
  \/ (exists line, py_index (split nl report) 1 = Ok line /\ occurs tab line = false) ->
  query_loop E (PyStr s :: rest) st w
  = (Err IndexError, record_call (Filereport (run_base s)) w).
Proof.
  intros report Hbad. simpl query_loop. rewrite lift_bind.
  fold (base_accession (PyStr s)). rewrite base_accession_str.
  rewrite bind_run. unfold wget_stdout at 1. fold report.
  destruct Hbad as [Hnl|(line & Hline & Htab)].
  - rewrite lift_bind, (split_no_sep nl report Hnl). reflexivity.
  - rewrite lift_bind, Hline, lift_bind_Ok, lift_bind.
    rewrite (split_no_sep tab line Htab), py_index_0, lift_bind. reflexivity.
Qed.

(** X13 on a file report that is a header line only. *)
Lemma malformed_file_report_raises_witness :
  let E := Env Demo.http_up (fun n acc => "run_accession" +:+ TAB +:+ "fastq_md5" +:+ NL)
             (Demo.parse []) (fun c => c) None (Demo.ls []) (Demo.cat []) in
  query_loop E [PyStr "SRR000001"; PyStr "SRR000002"] ([], ∅) (world0 None)
  = (Err IndexError, record_call (Filereport "SRR000001") (world0 None)).
Proof.
  intros E.
  apply (malformed_file_report_raises E "SRR000001" [PyStr "SRR000002"] ([], ∅) (world0 None)).
  right. exists "". split; reflexivity.
Defined.

(** ** The file validator: counting *)

Lemma with_stdout_nil (w : world) : with_stdout w [] = w.
Proof. destruct w. unfold with_stdout. simpl. now rewrite app_nil_r. Qed.

Lemma with_stdout_app (w : world) (l1 l2 : list string) :
  with_stdout (with_stdout w l1) l2 = with_stdout w (l1 ++ l2).
Proof. unfold with_stdout. simpl. now rewrite <- app_assoc. Qed.

Lemma print_with_stdout (s : string) (w : world) : (print s w).2 = with_stdout w [s].
Proof. reflexivity. Qed.

Lemma print_run (s : string) (w : world) : print s w = (Ok tt, with_stdout w [s]).
Proof. reflexivity. Qed.

Lemma validate_file_checked E dir md5_dic n fastq a x w :
  actual_md5 E dir fastq = Ok a ->
  expected_md5 md5_dic fastq = Ok x ->
  validate_file E dir md5_dic n fastq w
  = if String.eqb a x then (Ok n, w)
    else (Ok (n + 1), with_stdout w [failed_line fastq]).
Proof.
  unfold actual_md5, expected_md5, failed_line. intros Ha Hx.
  unfold mbind, result_bind in Ha, Hx.
  destruct (read_file E (path_join dir fastq)) as [content|] eqn:Hr; [|discriminate].
  injection Ha as <-.
  rewrite split_index_0 in Hx. fold (run_base fastq) in Hx.
  destruct (file_index fastq) as [dig|] eqn:Hd; [|discriminate].
  rewrite (validate_file_parsed E dir md5_dic n fastq dig content w Hd Hr).
  destruct (dict_get md5_dic (run_base fastq)) as [entry|]; [|discriminate].
  destruct (py_index entry (dig - 1)) as [item|]; [|discriminate].
  injection Hx as <-. reflexivity.
Qed.

Lemma validate_loop_counts E dir md5_dic (l : list string) :
  Forall (fun fastq => is_Ok (actual_md5 E dir fastq) = true
                       /\ is_Ok (expected_md5 md5_dic fastq) = true) l ->
  forall (n : Z) (w : world),
  validate_loop E dir md5_dic n l w
  = (Ok (n + Z.of_nat (length (List.filter (mismatch E dir md5_dic) l))),
     with_stdout w (map failed_line (List.filter (mismatch E dir md5_dic) l))).
Proof.
  induction 1 as [|fastq l [Ha Hx] _ IH]; intros n w; simpl.
  - now rewrite Z.add_0_r, with_stdout_nil.
  - destruct (actual_md5 E dir fastq) as [a|] eqn:Ea; [|discriminate].
    destruct (expected_md5 md5_dic fastq) as [x|] eqn:Ex; [|discriminate].
    assert (Hm : mismatch E dir md5_dic fastq = negb (String.eqb a x))
      by (unfold mismatch; now rewrite Ea, Ex).
    rewrite bind_run, Hm.
    rewrite (validate_file_checked E dir md5_dic n fastq a x w Ea Ex).
    destruct (String.eqb a x); simpl; rewrite IH.
    + reflexivity.
    + rewrite with_stdout_app. f_equal. f_equal. lia.
Qed.

(** X14. When the catalog is built and every file of the directory has a
    digest and an expected checksum, [validate] returns; it prints one
    "failed" line for each file whose digest differs from its expected
    checksum, in the order of the listing, then the number of these files,
    and the success line exactly when there is none. *)
Theorem validate_counts_mismatches (E : env) (accession dir : string) (w w1 : world)
    (l : list string) (md5_dic : gmap string (list string)) :
  listdir E dir = Ok l ->
  get_md5_from_ena E accession true (enter_validate accession dir w).2 = (Ok md5_dic, w1) ->
  Forall (fun fastq => is_Ok (actual_md5 E dir fastq) = true
                       /\ is_Ok (expected_md5 md5_dic fastq) = true) l ->
  let bad := List.filter (mismatch E dir md5_dic) l in
  validate E accession dir w
  = (Ok tt,
     with_stdout w1
       (["Start calculating md5"] ++ map failed_line bad
        ++ ["md5 failed count: " +:+ pretty (Z.of_nat (length bad))]
        ++ (if (length bad =? 0)%nat then ["project download success!"] else []))).
Proof.
  intros Hl Hg Hall bad. rewrite (validate_run E accession dir w l Hl), Hg.
  rewrite (validate_loop_counts E dir md5_dic l Hall). fold bad. rewrite Z.add_0_l.
  cbv zeta. rewrite !print_with_stdout, !with_stdout_app.
  destruct (length bad) as [|k] eqn:Hk.
  - change (Z.of_nat 0 =? 0) with true. change (0 =? 0)%nat with true. cbv iota.
    rewrite print_run, with_stdout_app, <- ?app_assoc. reflexivity.
  - replace (Z.of_nat (S k) =? 0) with false by (symmetry; apply Z.eqb_neq; lia).
    change (S k =? 0)%nat with false. cbv iota.
    rewrite app_nil_r, <- ?app_assoc. reflexivity.
Qed.

(** X14 on two files, the second of which differs. *)
Lemma validate_counts_mismatches_witness :
  let E := Demo.world_of Demo.http_up [["SRR000001"]]
             [("SRR000001_1.fastq", "abc"); ("SRR000001_2.fastq", "xyz")] in
  let w := world0 (Some Demo.cache_SRR000001) in
  let bad := List.filter (mismatch E "d" {["SRR000001" := ["abc"; "def" +:+ NL]]})
               ["SRR000001_1.fastq"; "SRR000001_2.fastq"] in
  bad = ["SRR000001_2.fastq"]
  /\ exists w1,
       validate E "PRJNA1" "d" w
       = (Ok tt,
          with_stdout w1
            (["Start calculating md5"] ++ map failed_line bad
             ++ ["md5 failed count: " +:+ pretty (Z.of_nat (length bad))]
             ++ (if (length bad =? 0)%nat then ["project download success!"] else []))).
Proof.
  intros E w bad. split; [vm_compute; reflexivity|]. eexists.
  apply (validate_counts_mismatches E "PRJNA1" "d" w _
           ["SRR000001_1.fastq"; "SRR000001_2.fastq"]
           {["SRR000001" := ["abc"; "def" +:+ NL]]}).
  - reflexivity.
  - vm_compute. reflexivity.
  - repeat constructor.
Defined.

(** ** The file validator: indices, newlines, names *)

Lemma py_index_minus_1 {A} (l : list A) (x : A) :
  last l = Some x -> py_index l (-1) = Ok x.
Proof.
  intros Hl. unfold py_index. change (-1 <? 0) with true. cbv iota zeta.
  assert (Hn : (0 < length l)%nat) by (destruct l; [discriminate|simpl; lia]).
  destruct (Z.ltb_spec (-1 + Z.of_nat (length l)) 0) as [H|_]; [lia|].
  destruct (Z.leb_spec (Z.of_nat (length l)) (-1 + Z.of_nat (length l))) as [H|_]; [lia|].
  simpl. rewrite last_lookup in Hl.
  replace (Z.to_nat (-1 + Z.of_nat (length l))) with (pred (length l)) by lia.
  now rewrite Hl.
Qed.

(** X15. A file whose name gives the index 0 is not out of range: it is
    compared with the last checksum of its run (Python's index -1), and
    counted as failed only when its digest differs from that one. *)
Theorem file_index_zero_reads_last_checksum (E : env) (dir : string)
    (md5_dic : gmap string (list string)) (n : Z) (fastq content item : string)
    (entry : list string) (w : world) :
  file_index fastq = Ok 0 ->
  read_file E (path_join dir fastq) = Ok content ->
  md5_dic !! run_base fastq = Some entry ->
  last entry = Some item ->
  validate_file E dir md5_dic n fastq w
  = if String.eqb (md5_hexdigest E content) (replace_nl item) then (Ok n, w)
    else (Ok (n + 1), (print (run_base fastq +:+ "_0 failed!") w).2).
Proof.
  intros Hd Hr Hm Hl.
  rewrite (validate_file_parsed E dir md5_dic n fastq 0 content w Hd Hr).
  unfold dict_get. rewrite Hm. change (0 - 1) with (-1).
  rewrite (py_index_minus_1 entry item Hl). reflexivity.
Qed.

(** X15 on a file numbered 0 whose digest is the second checksum. *)
Lemma file_index_zero_reads_last_checksum_witness :
  let E := Demo.world_of Demo.http_up [["SRR000001"]] [("SRR000001_0.fastq", "def")] in
  validate_file E "d" {["SRR000001" := ["abc"; "def" +:+ NL]]} 0 "SRR000001_0.fastq"
    (world0 None)
  = (Ok 0, world0 None).
Proof.
  intros E.
  rewrite (file_index_zero_reads_last_checksum E "d" _ 0 "SRR000001_0.fastq" "def"
             ("def" +:+ NL) ["abc"; "def" +:+ NL] (world0 None)); reflexivity.
Defined.

Lemma lookup_append_last (t : string) (l : list string) (j : nat) :
  append_last t l !! j = l !! j
  \/ append_last t l !! j = (fun x => x +:+ t) <$> l !! j.
Proof.
  revert j. induction l as [|x l IH]; intros j; [now left|].
  destruct l as [|y l].
  - destruct j; [right; reflexivity|left; reflexivity].
  - change (append_last t (x :: y :: l)) with (x :: append_last t (y :: l)).
    destruct j; [now left|]. apply IH.
Qed.

Lemma length_append_last (t : string) (l : list string) :
  length (append_last t l) = length l.
Proof.
  induction l as [|x [|y l] IH]; [reflexivity|reflexivity|].
  change (append_last t (x :: y :: l)) with (x :: append_last t (y :: l)).
  simpl in *. now rewrite IH.
Qed.

Lemma replace_nl_append_NL (x : string) : replace_nl (x +:+ NL) = replace_nl x.
Proof. rewrite replace_nl_app. simpl. apply append_empty_r. Qed.

(** One checksum of an entry, newlines removed: the same with or without
    a newline at the end of the entry. *)
Lemma py_index_append_last (l : list string) (i : Z) :
  (replace_nl <$> match py_index (append_last NL l) i with
                  | Ok x => Some x | Err _ => None end)
  = (replace_nl <$> match py_index l i with Ok x => Some x | Err _ => None end)
  /\ is_Ok (py_index (append_last NL l) i) = is_Ok (py_index l i).
Proof.
  unfold py_index. rewrite length_append_last.
  destruct (_ || _); [auto|].
  set (j := Z.to_nat _).
  destruct (lookup_append_last NL l j) as [->| ->]; [now destruct (l !! j)|].
  destruct (l !! j) as [x|]; simpl; [|auto].
  now rewrite replace_nl_append_NL.
Qed.

Lemma validate_file_newlines E dir (md5_dic : gmap string (list string)) n fastq w :
  validate_file E dir (append_last NL <$> md5_dic) n fastq w
  = validate_file E dir md5_dic n fastq w.
Proof.
  unfold validate_file.
  repeat (rewrite !lift_bind;
          match goal with
          | |- match ?r with Ok _ => _ | Err _ => _ end
               = match ?r with Ok _ => _ | Err _ => _ end =>
              destruct r; [|reflexivity]
          end).
  rewrite !bind_run. destruct (check_md5sum E _ w) as [[actual|e] w1]; [|reflexivity].
  rewrite !lift_bind. unfold dict_get. rewrite lookup_fmap.
  destruct (md5_dic !! _) as [entry|]; [|reflexivity]. simpl.
  rewrite !lift_bind.
  match goal with
  | |- context [py_index entry ?i] =>
      destruct (py_index_append_last entry i) as [Hv Hk];
      pose proof (py_index_error (append_last NL entry) i) as He1;
      pose proof (py_index_error entry i) as He2;
      destruct (py_index (append_last NL entry) i) as [x|e1],
               (py_index entry i) as [y|e2]
  end; simpl in *; try discriminate.
  - injection Hv as ->. reflexivity.
  - rewrite (He1 _ eq_refl), (He2 _ eq_refl). reflexivity.
Qed.

(** X16. A catalog whose entries all carry a newline at the end of their
    last checksum, as every entry loaded from the cache file does, gives
    for any directory the same result, the same failure count and the same
    printed lines as the catalog without these newlines. *)
Theorem validate_loop_ignores_cache_newlines (E : env) (dir : string)
    (md5_dic : gmap string (list string)) (n : Z) (l : list string) (w : world) :
  validate_loop E dir (append_last NL <$> md5_dic) n l w
  = validate_loop E dir md5_dic n l w.
Proof.
  revert n w. induction l as [|fastq l IH]; intros n w; simpl; [reflexivity|].
  rewrite !bind_run, validate_file_newlines.
  destruct (validate_file E dir md5_dic n fastq w) as [[n'|e] w']; [apply IH|reflexivity].
Qed.

(** X17. For a name [<base>_<idx>.<ext>] in which neither [<base>] nor
    [<idx>] holds an underscore or a period, [validate] takes [<base>] as
    the run and [int(<idx>)] as the file index, whatever the extension is
    (it may hold further periods and underscores). *)
Theorem conventional_name_is_parsed (base idx ext : string) :
  occurs "_" base = false -> occurs "." base = false ->
  occurs "_" idx = false -> occurs "." idx = false ->
  run_base (base +:+ "_" +:+ idx +:+ "." +:+ ext) = base
  /\ file_index (base +:+ "_" +:+ idx +:+ "." +:+ ext) = py_int idx.
Proof.
  intros Hub Hpb Hui Hpi. split.
  - unfold run_base. change ("_" +:+ idx +:+ "." +:+ ext) with (String "_" (idx +:+ "." +:+ ext)).
    now rewrite split_app_sep.
  - unfold file_index.
    replace (base +:+ "_" +:+ idx +:+ "." +:+ ext)
      with ((base +:+ "_" +:+ idx) +:+ String "." ext)
      by (now rewrite !append_assoc).
    rewrite split_app_sep.
    2:{ rewrite !occurs_app, Hpb, Hpi. reflexivity. }
    rewrite py_index_0. simpl mbind.
    change ("_" +:+ idx) with (String "_" idx).
    rewrite split_app_sep, (split_no_sep "_" idx Hui) by exact Hub.
    rewrite py_index_1. reflexivity.
Qed.

(** X17 on [SRR000001_2.fastq.gz]. *)
Lemma conventional_name_is_parsed_witness :
  run_base ("SRR000001" +:+ "_" +:+ "2" +:+ "." +:+ "fastq.gz") = "SRR000001"
  /\ file_index ("SRR000001" +:+ "_" +:+ "2" +:+ "." +:+ "fastq.gz") = py_int "2".
Proof.
  apply (conventional_name_is_parsed "SRR000001" "2" "fastq.gz"); reflexivity.
Defined.

(** X18. When [main] returns, [validate] was entered once for each pair of
    the positional pairing of the two argument lists, in order. *)
Theorem main_validates_pairs_in_order (E : env) (accs dirs : list string)
    (w w' : world) :
  main E (Args (Some accs) (Some dirs)) w = (Ok tt, w') ->
  validated w' = (validated w ++ zip accs dirs)%list.
Proof.
  unfold main. simpl. intros H.
  destruct (main_loop_trace E (zip accs dirs) w) as (k & _ & Hv & Hk).
  rewrite H in Hv, Hk. simpl in Hv, Hk. rewrite Hk in Hv by reflexivity.
  now rewrite firstn_all in Hv.
Qed.

(** X18 on three accessions and two directories. *)
Lemma main_validates_pairs_in_order_witness :
  let E := Demo.world_of Demo.http_up [["SRR000001"]] [("SRR000001_1.fastq", "abc")] in
  exists w',
    main E (Args (Some ["PRJNA1"; "PRJNA2"; "PRJNA3"]) (Some ["d"; "d"]))
      (world0 (Some Demo.cache_SRR000001)) = (Ok tt, w')
    /\ validated w' = [("PRJNA1", "d"); ("PRJNA2", "d")].
Proof.
  intros E. eexists. split; [vm_compute; reflexivity|].
  eapply (main_validates_pairs_in_order E ["PRJNA1"; "PRJNA2"; "PRJNA3"] ["d"; "d"]
            (world0 (Some Demo.cache_SRR000001))).
  vm_compute. reflexivity.
Defined.

(** ** The checksum catalog: the warm cache *)

Lemma split_no_occurs (c : ascii) (s : string) :
  Forall (fun x => occurs c x = false) (split c s).
Proof.
  induction s as [|a s IH]; simpl; [repeat constructor|].
  destruct (Ascii.eqb a c) eqn:Hac; [constructor; [reflexivity|exact IH]|].
  destruct (split c s) as [|h t]; [repeat constructor; simpl; now rewrite Hac|].
  inversion IH as [|? ? Hh Ht]; subst. constructor; [|exact Ht].
  simpl. now rewrite Hac, Hh.
Qed.

Lemma py_index_Forall {A} (P : A -> Prop) (l : list A) (i : Z) (x : A) :
  Forall P l -> py_index l i = Ok x -> P x.
Proof.
  intros Hl. unfold py_index. destruct (_ || _); [discriminate|].
  destruct (l !! _) as [y|] eqn:Hy; [|discriminate]. intros [= <-].
  eapply Forall_lookup_1; eauto.
Qed.

Lemma split_app_suffix (sep : ascii) (a t : string) :
  occurs sep t = false -> split sep (a +:+ t) = append_last t (split sep a).
Proof.
  intros Ht. induction a as [|c a IH].
  - rewrite append_empty_l. simpl. now apply split_no_sep.
  - rewrite append_cons. simpl. rewrite IH.
    destruct (Ascii.eqb c sep).
    + destruct (split_cons sep a) as (h & r & ->). destruct r; reflexivity.
    + destruct (split_cons sep a) as (h & r & ->). destruct r; reflexivity.
Qed.

Lemma load_cache_new_lines (lines : list string) :
  Forall two_fields lines ->
  forall (keys : list string) (dic : gmap string (list string)),
  exists dic',
    load_cache (map (fun md5 => md5 +:+ NL) lines) (keys, dic)
    = Ok ((keys ++ map line_key lines)%list, dic').
Proof.
  induction 1 as [|line lines (f1 & f2 & rest & Hs) _ IH]; intros keys dic.
  - exists dic. simpl. now rewrite app_nil_r.
  - change (map (fun md5 => md5 +:+ NL) (line :: lines))
      with ([line +:+ NL] ++ map (fun md5 => md5 +:+ NL) lines)%list.
    rewrite load_cache_app, load_cache_one.
    assert (Hsp : split tab (line +:+ NL) = f1 :: append_last NL (f2 :: rest)).
    { rewrite split_app_suffix by reflexivity. rewrite Hs. reflexivity. }
    assert (Hk : line_key (line +:+ NL) = line_key line).
    { unfold line_key. now rewrite Hsp, Hs. }
    rewrite Hsp. destruct (append_last NL (f2 :: rest)) as [|g r] eqn:Ha.
    { destruct rest; discriminate. }
    simpl. rewrite Hk.
    destruct (IH (keys ++ [line_key line])%list
                 (<[line_key line := line_checksums (line +:+ NL)]> dic)) as [dic' Hd].
    exists dic'. rewrite Hd, <- app_assoc. reflexivity.
Qed.

Lemma ends_nl_line (l : string) : ends_nl (l +:+ NL) = true.
Proof.
  induction l as [|c l IH]; [reflexivity|].
  rewrite append_cons. destruct (l +:+ NL) as [|c' s'] eqn:E.
  - destruct l; cbv in E; discriminate E.
  - exact IH.
Qed.

Lemma readlines_new_lines (lines : list string) :
  Forall (fun line => occurs nl line = false) lines ->
  readlines (String.concat "" (map (fun md5 => md5 +:+ NL) lines))
  = map (fun md5 => md5 +:+ NL) lines.
Proof.
  induction 1 as [|line lines Hl _ IH]; [reflexivity|].
  assert (Hc : String.concat "" (map (fun md5 => md5 +:+ NL) (line :: lines))
               = (line +:+ NL) +:+ String.concat "" (map (fun md5 => md5 +:+ NL) lines)).
  { simpl. destruct (map _ lines); [now rewrite append_empty_r|reflexivity]. }
  rewrite Hc, readlines_app, readlines_line, IH by (exact Hl || apply ends_nl_line).
  reflexivity.
Qed.

Lemma py_index_two_fields (line f1 f2 : string) :
  py_index (split tab line) 0 = Ok f1 ->
  py_index (split tab line) 1 = Ok f2 ->
  two_fields line.
Proof.
  destruct (split_cons tab line) as (h & t & Hs). rewrite Hs.
  destruct t as [|g t]; [discriminate|]. intros _ _. now exists h, g, t.
Qed.

(** The lines the query loop collects when it returns: one per run, each
    the second line of a file report requested for that run. *)
Lemma query_loop_lines E (l : list pyval) :
  forall (st st' : list string * gmap string (list string)) (w w' : world),
  query_loop E l st w = (Ok st', w') ->
  exists (names lines : list string),
    l = PyStr <$> names
    /\ st'.1 = (st.1 ++ lines)%list
    /\ Forall2 (fun s line =>
                  two_fields line /\ occurs nl line = false
                  /\ exists n, py_index (split nl (wget E n (run_base s))) 1 = Ok line)
               names lines.
Proof.
  induction l as [|fastq l IH]; intros st st' w w'; simpl.
  - intros [= <- <-]. exists [], []. rewrite app_nil_r. auto.
  - rewrite lift_bind. destruct fastq as [|s|]; simpl; try discriminate.
    fold (base_accession (PyStr s)). rewrite base_accession_str.
    rewrite bind_run. unfold wget_stdout at 1.
    rewrite lift_bind.
    destruct (py_index (split nl _) 1) as [line|] eqn:Hline; [|discriminate].
    rewrite lift_bind_Ok, lift_bind.
    destruct (py_index (split tab line) 0) as [f1|] eqn:H0; [|discriminate].
    rewrite lift_bind.
    destruct (py_index (split tab line) 1) as [f2|] eqn:H1; [|discriminate].
    intros Hrun. apply IH in Hrun as (names & lines & -> & Hl & Hall).
    exists (s :: names), (line :: lines). split; [reflexivity|]. split.
    + rewrite Hl. simpl. now rewrite <- app_assoc.
    + constructor; [|exact Hall]. split; [eapply py_index_two_fields; eauto|].
      split; [|eauto].
      eapply (py_index_Forall (fun x => occurs nl x = false)); [|exact Hline].
      apply split_no_occurs.
Qed.

(** X19. After [get_md5_from_ena] returned with [cache=True] on a cache
    that is empty or ends with a newline, and when the data line of each
    file report starts with the run it was requested for, the cache file
    loads again and lists every run of the resolved list; a further call
    that resolves the same runs on that cache returns without requesting
    any file report. *)
Theorem warm_cache_needs_no_query (E : env) (accession : string) (w w1 w' : world)
    (runs : list pyval) (content : string) (dic : gmap string (list string)) :
  fetch_runs_from_bioproject E accession
    (print "Start generating md5 dictionary..." w).2 = (Ok runs, w1) ->
  md5_cache w1 = Some content ->
  ends_nl content = true ->
  (forall (n : nat) (s line : string),
     PyStr s ∈ runs ->
     py_index (split nl (wget E n (run_base s))) 1 = Ok line -> line_key line = s) ->
  get_md5_from_ena E accession true w = (Ok dic, w') ->
  exists (content' : string) (keys' : list string) (dic' : gmap string (list string)),
    md5_cache w' = Some content'
    /\ load_cache (readlines content') ([], ∅) = Ok (keys', dic')
    /\ (list_to_set runs : gset pyval) ∖ list_to_set (PyStr <$> keys') = ∅
    /\ forall wa wb : world,
         fetch_runs_from_bioproject E accession
           (print "Start generating md5 dictionary..." wa).2 = (Ok runs, wb) ->
         md5_cache wb = Some content' ->
         (get_md5_from_ena E accession true wa).1 = Ok dic'
         /\ calls (get_md5_from_ena E accession true wa).2 = calls wb.
Proof.
  intros Hf Hc Hends Hkey Hrun.
  assert (Again : forall content' keys' dic',
    load_cache (readlines content') ([], ∅) = Ok (keys', dic') ->
    (list_to_set runs : gset pyval) ∖ list_to_set (PyStr <$> keys') = ∅ ->
    forall wa wb : world,
      fetch_runs_from_bioproject E accession
        (print "Start generating md5 dictionary..." wa).2 = (Ok runs, wb) ->
      md5_cache wb = Some content' ->
      (get_md5_from_ena E accession true wa).1 = Ok dic'
      /\ calls (get_md5_from_ena E accession true wa).2 = calls wb).
  { intros content' keys' dic' Hl He wa wb Hfa Hca.
    rewrite (get_md5_from_ena_loaded E accession wa wb runs content' keys' dic' Hfa Hca Hl).
    cbv zeta. rewrite He, elements_empty. simpl. auto. }
  destruct (load_cache (readlines content) ([], ∅)) as [[keys dic0]|e] eqn:Hl.
  2:{ exfalso. revert Hrun. unfold get_md5_from_ena.
      rewrite print_bind, bind_run, Hf, print_bind, bind_run.
      unfold read_cache_lines. simpl md5_cache. rewrite Hc.
      rewrite lift_bind, Hl. discriminate. }
  rewrite (get_md5_from_ena_loaded E accession w w1 runs content keys dic0 Hf Hc Hl) in Hrun.
  cbv zeta in Hrun.
  set (need := elements ((list_to_set runs : gset pyval) ∖ list_to_set (PyStr <$> keys))) in *.
  destruct (length need =? 0)%nat eqn:Hn.
  - injection Hrun as <- <-.
    assert (He : (list_to_set runs : gset pyval) ∖ list_to_set (PyStr <$> keys) = ∅).
    { apply Nat.eqb_eq, length_zero_iff_nil in Hn. unfold need in Hn.
      apply leibniz_equiv. now apply elements_empty_iff. }
    exists content, keys, dic0. simpl. rewrite Hc. eauto.
  - rewrite bind_run in Hrun.
    pose proof (keeps_cache_query_loop E need ([], dic0)
      (print "Some runs are not cached, start fetching md5 from ENA, this may take a while..."
         (print "Using cache to search md5..." w1).2).2) as Hk.
    destruct (query_loop E need ([], dic0) _) as [[st|e] w3] eqn:Hq; [|discriminate].
    simpl in Hk, Hrun. injection Hrun as <- <-.
    apply query_loop_lines in Hq as (names & lines & Hneed & Hlines & Hall).
    simpl in Hlines. subst lines.
    assert (Hnames : forall s, s ∈ names -> PyStr s ∈ runs).
    { intros s Hs.
      assert (Hin : PyStr s ∈ need) by (rewrite Hneed; apply list_elem_of_fmap; eauto).
      unfold need in Hin. apply elem_of_elements, elem_of_difference in Hin as [Hin _].
      now apply elem_of_list_to_set in Hin. }
    assert (Hkeys : map line_key st.1 = names).
    { clear -Hall Hkey Hnames. induction Hall as [|s line names lines (_ & _ & n & Hline) _ IH];
        [reflexivity|]. simpl. f_equal.
      - apply (Hkey n s line); [apply Hnames; left|exact Hline].
      - apply IH. intros s' Hs'. apply Hnames. now right. }
    destruct (load_cache_new_lines st.1) with (keys := keys) (dic := dic0) as [dic' Hd].
    { clear -Hall. induction Hall as [|? ? ? ? (H & _) _ IH]; constructor; auto. }
    exists (content +:+ String.concat "" (map (fun md5 => md5 +:+ NL) st.1)),
           (keys ++ names)%list, dic'.
    assert (Hload : load_cache
              (readlines (content +:+ String.concat "" (map (fun md5 => md5 +:+ NL) st.1)))
              ([], ∅) = Ok ((keys ++ names)%list, dic')).
    { rewrite readlines_app by exact Hends. rewrite readlines_new_lines.
      - rewrite load_cache_app, Hl. simpl. now rewrite Hd, Hkeys.
      - clear -Hall. induction Hall as [|? ? ? ? (_ & H & _) _ IH]; constructor; auto. }
    assert (He : (list_to_set runs : gset pyval)
                 ∖ list_to_set (PyStr <$> (keys ++ names)%list) = ∅).
    { apply leibniz_equiv. intros x.
      split; [|intros Hx; now apply elem_of_empty in Hx]. intros Hx.
      apply elem_of_difference in Hx as [Hx1 Hx2]. exfalso. apply Hx2.
      rewrite fmap_app. apply elem_of_list_to_set, elem_of_app.
      destruct (decide (x ∈ PyStr <$> keys)) as [Hin|Hnin]; [now left|right].
      rewrite <- Hneed. unfold need. apply elem_of_elements, elem_of_difference.
      split; [exact Hx1|now rewrite elem_of_list_to_set]. }
    split; [simpl; now rewrite Hk, Hc|]. split; [exact Hload|]. split; [exact He|].
    now apply (Again _ _ _ Hload He).
Qed.

(** X19 on two runs, one of them cached. *)
Lemma warm_cache_needs_no_query_witness :
  let E := Demo.world_of Demo.http_up [["SRR000001"]; ["SRR000002"]] [] in
  let w := world0 (Some Demo.cache_SRR000001) in
  exists (content' : string) (keys' : list string) (dic' : gmap string (list string)),
    md5_cache (get_md5_from_ena E "PRJNA1" true w).2 = Some content'
    /\ load_cache (readlines content') ([], ∅) = Ok (keys', dic')
    /\ (list_to_set [PyStr "SRR000001"; PyStr "SRR000002"] : gset pyval)
         ∖ list_to_set (PyStr <$> keys') = ∅
    /\ forall wa wb : world,
         fetch_runs_from_bioproject E "PRJNA1"
           (print "Start generating md5 dictionary..." wa).2
           = (Ok [PyStr "SRR000001"; PyStr "SRR000002"], wb) ->
         md5_cache wb = Some content' ->
         (get_md5_from_ena E "PRJNA1" true wa).1 = Ok dic'
         /\ calls (get_md5_from_ena E "PRJNA1" true wa).2 = calls wb.
Proof.
  intros E w.
  eapply (warm_cache_needs_no_query E "PRJNA1" w _ _
            [PyStr "SRR000001"; PyStr "SRR000002"] Demo.cache_SRR000001).
  - vm_compute. reflexivity.
  - reflexivity.
  - reflexivity.
  - intros n s line Hs. unfold E, Demo.world_of, wget, Demo.file_report.
    assert (Hb : run_base s = s).
    { apply elem_of_cons in Hs as [[= ->]|Hs]; [reflexivity|].
      apply elem_of_cons in Hs as [[= ->]|Hs]; [reflexivity|].
      now apply elem_of_nil in Hs. }
    rewrite Hb.
    apply elem_of_cons in Hs as [[= ->]|Hs]; [intros [= <-]; reflexivity|].
    apply elem_of_cons in Hs as [[= ->]|Hs]; [intros [= <-]; reflexivity|].
    now apply elem_of_nil in Hs.
  - vm_compute. reflexivity.
Defined.
